(** * SQUAD core models: build status computation

    A shallow embedding of the status logic of [squad/core/models.py]:
    [Test.status], [Test.history], [TestSummaryBase], [TestSummary],
    [Build.metadata], [Build.finished], [ProjectStatus.create_or_update]
    and [ProjectStatus.get_regressions].

    Conventions of the embedding.
    - Database rows are records.  A related manager ([build.test_runs],
      [run.tests], [project.environments], [build.test_jobs]) is the list of
      rows the relation holds, in the order the unordered queryset yields them.
    - Django compares model instances by primary key, so keys made of model
      instances are keys made of their ids.
    - A Python [dict] is an insertion-ordered association list ([PyDict]).
    - A Python exception is the [Raise] outcome of the [result] monad.
    - [IntegerField] is [Z], [NullBooleanField] is [option bool], a nullable
      field is an [option], [DateTimeField] is a [Z] time stamp.
    - [FloatField] values are carried as rationals: this module never computes
      on metric values.  The percentages of [TestSummaryBase] are Python
      floats: binary64 values with the rounding of IEEE 754 ([SpecFloat]). *)

From Stdlib Require Import ZArith List String Ascii Bool Lia QArith Sorting.Sorted Permutation.
From Stdlib Require Import SpecFloat.
From stdpp Require Import base decidable option list strings pretty gmap.

Close Scope Q_scope.
Open Scope string_scope.
Open Scope list_scope.
Open Scope Z_scope.

(** ** Exceptions *)

Inductive exn : Type :=
| KeyError (key : Z)
| InvalidTestStatus (status : string)
| ZeroDivisionError
| OverflowError
| YAMLError.

Inductive result (A : Type) : Type :=
| Ok (a : A)
| Raise (e : exn).

Arguments Ok {A} a.
Arguments Raise {A} e.

#[global] Instance result_ret : MRet result := @Ok.

#[global] Instance result_bind : MBind result :=
  fun A B f m => match m with Ok a => f a | Raise e => Raise e end.

(** A [for] loop whose body may raise: the state is threaded through the
    items from left to right and the first exception ends the loop. *)
Fixpoint for_each {S A : Type} (body : S -> A -> result S) (items : list A) (s : S) : result S :=
  match items with
  | [] => Ok s
  | x :: rest => s' ← body s x; for_each body rest s'
  end.

(** ** Python dictionaries (insertion ordered) *)

Module PyDict.
Section Dict.
Context {K V : Type} `{EqDecision K}.

Definition t : Type := list (K * V).

Definition empty : t := [].

(** [d.get(k)] *)
Fixpoint get (d : t) (k : K) : option V :=
  match d with
  | [] => None
  | (k', v) :: rest => if decide (k = k') then Some v else get rest k
  end.

(** [d[k] = v]: an existing key keeps its position. *)
Fixpoint set (d : t) (k : K) (v : V) : t :=
  match d with
  | [] => [(k, v)]
  | (k', v') :: rest =>
      if decide (k = k') then (k', v) :: rest else (k', v') :: set rest k v
  end.

(** [d.setdefault(k, v)] (the dictionary after the call). *)
Definition setdefault (d : t) (k : K) (v : V) : t :=
  match get d k with
  | Some _ => d
  | None => set d k v
  end.

Definition keys (d : t) : list K := map fst d.
Definition values (d : t) : list V := map snd d.
Definition items (d : t) : list (K * V) := d.

End Dict.
Arguments t K V : clear implicits.
End PyDict.

(** ** Querysets: [order_by] *)

(** A stable sort: rows that compare equal keep the order of the input. *)
Fixpoint insert_by {A : Type} (le : A -> A -> bool) (x : A) (l : list A) : list A :=
  match l with
  | [] => [x]
  | y :: rest => if le x y then x :: y :: rest else y :: insert_by le x rest
  end.

Definition sort_by {A : Type} (le : A -> A -> bool) (l : list A) : list A :=
  fold_right (insert_by le) [] l.

(** ** Python values held in metadata *)

(** The data-model protocol of the values that are not lists: [==], [str]
    and [repr]. *)
Class PyAtom (A : Type) : Type := {
  atom_eq : A -> A -> bool;
  atom_str : A -> string;
  atom_repr : A -> string
}.

(** Python [int]. *)
#[global] Instance int_atom : PyAtom Z := {
  atom_eq := Z.eqb;
  atom_str := pretty;
  atom_repr := pretty
}.

#[warnings="-register-all"]
Inductive value (A : Type) : Type :=
| Atom (a : A)
| VList (l : list (value A)).

Arguments Atom {A} a.
Arguments VList {A} l.

(** [x == y]: a list equals a list of the same length with equal items, and
    never a value that is not a list. *)
Fixpoint py_eq {A : Type} `{PyAtom A} (x y : value A) : bool :=
  match x, y with
  | Atom a, Atom b => atom_eq a b
  | VList l1, VList l2 =>
      (fix items_eq (l1 l2 : list (value A)) : bool :=
         match l1, l2 with
         | [], [] => true
         | a :: r1, b :: r2 => py_eq a b && items_eq r1 r2
         | _, _ => false
         end) l1 l2
  | _, _ => false
  end.

(** [repr(x)]: a list prints the [repr] of its items. *)
Fixpoint py_repr {A : Type} `{PyAtom A} (x : value A) : string :=
  match x with
  | Atom a => atom_repr a
  | VList l => "[" +:+ String.concat ", " (map py_repr l) +:+ "]"
  end.

(** [str(x)] *)
Definition py_str {A : Type} `{PyAtom A} (x : value A) : string :=
  match x with
  | Atom a => atom_str a
  | VList l => py_repr (VList l)
  end.

(** [x in l] *)
Definition py_in {A : Type} `{PyAtom A} (x : value A) (l : list (value A)) : bool :=
  existsb (fun y => py_eq y x) l.

(** [sorted(l, key=str)]: strings compare by code point and the sort is
    stable. *)
Definition sorted_by_str {A : Type} `{PyAtom A} (l : list (value A)) : list (value A) :=
  sort_by (fun x y => String.leb (py_str x) (py_str y)) l.

(** ** The data model *)

Record Environment : Type := mkEnvironment {
  env_id : Z;
  env_slug : string;
  env_name : option string;
  expected_test_runs : option Z
}.

Record Suite : Type := mkSuite {
  suite_id : Z;
  suite_slug : string
}.

Record Test : Type := mkTest {
  test_id : Z;
  test_suite : Suite;
  test_name : string;
  test_result : option bool;
  has_known_issues : option bool
}.

Record Metric : Type := mkMetric {
  metric_name : string;
  metric_result : Q
}.

(** A CI job of [squad.ci] linked to a build; only [fetched] is read here. *)
Record TestJob : Type := mkTestJob {
  fetched : bool
}.

Record Project : Type := mkProject {
  project_id : Z;
  environments : list Environment
}.

Section Models.
Context {atom : Type}.

Record TestRun : Type := mkTestRun {
  run_id : Z;
  run_environment : Environment;
  completed : bool;
  run_metadata : PyDict.t string (value atom);
  run_tests : list Test;
  run_metrics : list Metric
}.

Record Build : Type := mkBuild {
  build_id : Z;
  build_project : Project;
  build_datetime : Z;
  patch_baseline : option Z;
  test_runs : list TestRun;
  test_jobs : list TestJob
}.

(** A [Test] object together with the rows its relations resolve to:
    [test.test_run] and [test.test_run.build]. *)
Record TestRow : Type := mkTestRow {
  row_build : Build;
  row_run : TestRun;
  row_test : Test
}.

End Models.
Arguments TestRun atom : clear implicits.
Arguments Build atom : clear implicits.
Arguments TestRow atom : clear implicits.

(** ** [Test.status] *)

Definition Test_status (self : Test) : string :=
  match test_result self with
  | Some true => "pass"
  | None => "skip"
  | Some false =>
      match has_known_issues self with
      | Some true => "xfail"
      | _ => "fail"
      end
  end.

(** ** Python numbers *)

(** A Python [float] is an IEEE 754 binary64 value: 53 bits of precision and
    exponents below 1024 ([sys.float_info.mant_dig] and [max_exp]); its
    operations round to nearest, ties to even. *)
Definition mant_dig : Z := 53.
Definition max_exp : Z := 1024.

(** The double nearest to an integer, infinite beyond the largest double. *)
Definition binary64 (z : Z) : spec_float :=
  binary_normalize mant_dig max_exp z 0 false.

(** [float(z)]: an [int] too large for a double raises. *)
Definition float_of_int (z : Z) : result spec_float :=
  match binary64 z with
  | S754_infinity _ => Raise OverflowError
  | f => Ok f
  end.

(** [a / b] on floats. *)
Definition float_truediv (a b : spec_float) : result spec_float :=
  match b with
  | S754_zero _ => Raise ZeroDivisionError
  | _ => Ok (SFdiv mant_dig max_exp a b)
  end.

(** [i * b] for an [int] and a [float]: the [int] is converted first. *)
Definition int_mul_float (i : Z) (b : spec_float) : result spec_float :=
  a ← float_of_int i; Ok (SFmul mant_dig max_exp a b).

(** What [__percent__] returns: the [int] 0 or a [float]. *)
Inductive number : Type :=
| PyInt (z : Z)
| PyFloat (f : spec_float).

(** ** [TestSummaryBase] *)

(** The mixin reads four counters of the object it is mixed into. *)
Class TestSummaryBase (T : Type) : Type := {
  tests_pass : T -> Z;
  tests_fail : T -> Z;
  tests_xfail : T -> Z;
  tests_skip : T -> Z
}.

Section SummaryBase.
Context {T : Type} `{TestSummaryBase T}.

Definition tests_total (self : T) : Z :=
  tests_pass self + tests_fail self + tests_xfail self + tests_skip self.

(** [__percent__]: [100 * (float(ntests) / float(self.tests_total))] for a
    positive [ntests], the [int] 0 otherwise.  The operands are evaluated
    from left to right; the division raises on a zero divisor. *)
Definition percent (self : T) (ntests : Z) : result number :=
  if 0 <? ntests then
    n ← float_of_int ntests;
    total ← float_of_int (tests_total self);
    ratio ← float_truediv n total;
    p ← int_mul_float 100 ratio;
    Ok (PyFloat p)
  else Ok (PyInt 0).

Definition pass_percentage (self : T) : result number :=
  percent self (tests_pass self).




End SummaryBase.

(** ** [TestSummary] *)

Section Summary.
Context {atom : Type}.

Record TestSummary : Type := mkTestSummary {
  ts_tests_pass : Z;
  ts_tests_fail : Z;
  ts_tests_xfail : Z;
  ts_tests_skip : Z;
  failures : PyDict.t string (list (TestRow atom))
}.

#[global] Instance TestSummary_base : TestSummaryBase TestSummary := {
  tests_pass := ts_tests_pass;
  tests_fail := ts_tests_fail;
  tests_xfail := ts_tests_xfail;
  tests_skip := ts_tests_skip
}.

(** The key [(run.environment, test.suite, test.name)]: model instances
    compare and hash by primary key. *)
Definition test_key (run : TestRun atom) (test : Test) : Z * Z * string :=
  (env_id (run_environment run), suite_id (test_suite test), test_name test).

(** [build.test_runs...order_by('id')] *)
Definition runs_by_id (build : Build atom) : list (TestRun atom) :=
  sort_by (fun r1 r2 => run_id r1 <=? run_id r2) (test_runs build).

(** The first loop of [__init__]: the deduplication map [tests]. *)
Definition collect_tests (build : Build atom) : PyDict.t (Z * Z * string) (TestRow atom) :=
  fold_left
    (fun tests run =>
       fold_left
         (fun tests test => PyDict.set tests (test_key run test) (mkTestRow build run test))
         (run_tests run) tests)
    (runs_by_id build) PyDict.empty.

(** The body of the second loop of [__init__]. *)
Definition count_test (self : TestSummary) (item : Z * Z * string * TestRow atom) : result TestSummary :=
  let test := item.2 in
  let status := Test_status (row_test test) in
  self ←
    (if String.eqb status "pass" then
       Ok (mkTestSummary (ts_tests_pass self + 1) (ts_tests_fail self)
             (ts_tests_xfail self) (ts_tests_skip self) (failures self))
     else if String.eqb status "fail" then
       Ok (mkTestSummary (ts_tests_pass self) (ts_tests_fail self + 1)
             (ts_tests_xfail self) (ts_tests_skip self) (failures self))
     else if String.eqb status "xfail" then
       Ok (mkTestSummary (ts_tests_pass self) (ts_tests_fail self)
             (ts_tests_xfail self + 1) (ts_tests_skip self) (failures self))
     else if String.eqb status "skip" then
       Ok (mkTestSummary (ts_tests_pass self) (ts_tests_fail self)
             (ts_tests_xfail self) (ts_tests_skip self + 1) (failures self))
     else Raise (InvalidTestStatus status));
  if String.eqb status "fail" then
    let env := env_slug (run_environment (row_run test)) in
    let fs := PyDict.setdefault (failures self) env [] in
    let fs := PyDict.set fs env (default [] (PyDict.get fs env) ++ [test]) in
    Ok (mkTestSummary (ts_tests_pass self) (ts_tests_fail self)
          (ts_tests_xfail self) (ts_tests_skip self) fs)
  else Ok self.

(** [TestSummary(build)] *)
Definition TestSummary_init (build : Build atom) : result TestSummary :=
  for_each count_test (PyDict.items (collect_tests build))
    (mkTestSummary 0 0 0 0 PyDict.empty).

End Summary.
Arguments TestSummary atom : clear implicits.

(** ** [Build.metadata] *)

Section Metadata.
Context {atom : Type} `{PyAtom atom}.

(** The body of the inner loop of the first pass: a value is recorded once
    per key, in the order of first appearance. *)
Definition merge_item (metadata : PyDict.t string (list (value atom))) (item : string * value atom)
  : PyDict.t string (list (value atom)) :=
  let key := item.1 in
  let value := item.2 in
  let metadata := PyDict.setdefault metadata key [] in
  let seen := default [] (PyDict.get metadata key) in
  if py_in value seen then metadata
  else PyDict.set metadata key (seen ++ [value]).

(** The body of the outer loop: the items of one test run. *)
Definition merge_run (metadata : PyDict.t string (list (value atom))) (test_run : TestRun atom)
  : PyDict.t string (list (value atom)) :=
  fold_left merge_item (PyDict.items (run_metadata test_run)) metadata.

(** The body of the second loop: the new value of one key. *)
Definition collapse (values : list (value atom)) : value atom :=
  match values with
  | [v] => v
  | _ => VList (sorted_by_str values)
  end.

(** [Build.metadata].  The second loop assigns every key of the dictionary
    once, in place: it maps [collapse] over the items. *)
Definition Build_metadata (self : Build atom) : PyDict.t string (value atom) :=
  map (fun item => (item.1, collapse item.2))
    (PyDict.items (fold_left merge_run (test_runs self) PyDict.empty)).

End Metadata.

(** ** [Build.finished] *)

(** [str(environment)]: [self.name or self.slug]. *)
Definition Environment_str (e : Environment) : string :=
  match env_name e with
  | Some n => if String.eqb n "" then env_slug e else n
  | None => env_slug e
  end.

(** An entry of the [testruns] dictionary. *)
Record EnvCount : Type := mkEnvCount {
  count_name : string;
  count_expected : option Z;
  count_received : Z
}.

(** The body of the loop over [testruns.items()]. *)
Definition check_env (reasons : list string) (item : Z * EnvCount) : list string :=
  let count := item.2 in
  let expected := count_expected count in
  let received := count_received count in
  let env_name := count_name count in
  if bool_decide (expected = Some 0) then reasons
  else
    let reasons :=
      if received =? 0 then
        reasons ++ ["No test runs for " +:+ env_name +:+ " received so far"]
      else reasons in
    match expected with
    | Some n =>
        if negb (n =? 0) && (received <? n) then
          reasons ++ [pretty n +:+ " test runs expected for " +:+ env_name +:+
                      ", but only " +:+ pretty received +:+ " received so far"]
        else reasons
    | None => reasons
    end.

Section Finished.
Context {atom : Type}.

(** The body of the loop over the completed test runs:
    [testruns[t.environment_id]['received'] += 1]. *)
Definition count_run (testruns : PyDict.t Z EnvCount) (t : TestRun atom) : result (PyDict.t Z EnvCount) :=
  let environment_id := env_id (run_environment t) in
  match PyDict.get testruns environment_id with
  | None => Raise (KeyError environment_id)
  | Some c =>
      Ok (PyDict.set testruns environment_id
            (mkEnvCount (count_name c) (count_expected c) (count_received c + 1)))
  end.

Definition Build_finished (self : Build atom) : result (bool * list string) :=
  let reasons := [] in
  let testjobs := test_jobs self in
  let reasons :=
    if 0 <? Z.of_nat (length testjobs) then
      if 0 <? Z.of_nat (length (List.filter (fun j => negb (fetched j)) testjobs)) then
        reasons ++ ["There are unfinished CI jobs"]
      else reasons
    else reasons in
  let testruns :=
    fold_left
      (fun d e => PyDict.set d (env_id e) (mkEnvCount (Environment_str e) (expected_test_runs e) 0))
      (environments (build_project self)) PyDict.empty in
  testruns ← for_each count_run (List.filter completed (test_runs self)) testruns;
  let reasons := fold_left check_env (PyDict.items testruns) reasons in
  Ok (Z.of_nat (length reasons) =? 0, reasons).

End Finished.

(** ** [Test.history] *)

Section History.
Context {atom : Type}.

(** [Test.objects.all()] over the builds of the database. *)
Definition all_tests (builds : list (Build atom)) : list (TestRow atom) :=
  flat_map
    (fun b => flat_map (fun r => map (mkTestRow b r) (run_tests r)) (test_runs b))
    builds.

(** The queryset [previous_tests]: [filter], [exclude], then
    [order_by("-test_run__build__datetime")]. *)
Definition previous_tests (builds : list (Build atom)) (self : TestRow atom) : list (TestRow atom) :=
  let date := build_datetime (row_build self) in
  sort_by
    (fun t1 t2 => build_datetime (row_build t2) <=? build_datetime (row_build t1))
    (List.filter
       (fun t => negb (test_id (row_test t) =? test_id (row_test self)))
       (List.filter
          (fun t =>
             (suite_id (test_suite (row_test t)) =? suite_id (test_suite (row_test self)))
             && String.eqb (test_name (row_test t)) (test_name (row_test self))
             && (build_datetime (row_build t) <? date)
             && (env_id (run_environment (row_run t)) =? env_id (run_environment (row_run self))))
          (all_tests builds))).

Record History : Type := mkHistory {
  since : option (TestRow atom);
  count : Z;
  last_different : option (TestRow atom)
}.

(** The [for] loop of [history], with its [break]. *)
Fixpoint history_loop (self : TestRow atom) (tests : list (TestRow atom))
  (since : option (TestRow atom)) (count : Z) : History :=
  match tests with
  | [] => mkHistory since count None
  | test :: rest =>
      if bool_decide (test_result (row_test test) = test_result (row_test self)) then
        history_loop self rest (Some test) (count + 1)
      else mkHistory since count (Some test)
  end.

Definition Test_history (builds : list (Build atom)) (self : TestRow atom) : History :=
  history_loop self (previous_tests builds self) None 0.

End History.
Arguments History atom : clear implicits.

(** ** [ProjectStatus] *)

Record ProjectStatus : Type := mkProjectStatus {
  status_build : Z;
  created_at : Z;
  last_updated : option Z;
  finished : bool;
  notified : bool;
  notified_on_timeout : bool;
  approved : bool;
  metrics_summary : Q;
  has_metrics : bool;
  ps_tests_pass : Z;
  ps_tests_fail : Z;
  ps_tests_xfail : Z;
  ps_tests_skip : Z;
  test_runs_total : Z;
  test_runs_completed : Z;
  test_runs_incomplete : Z;
  regressions : option string;
  fixes : option string
}.

#[global] Instance ProjectStatus_base : TestSummaryBase ProjectStatus := {
  tests_pass := ps_tests_pass;
  tests_fail := ps_tests_fail;
  tests_xfail := ps_tests_xfail;
  tests_skip := ps_tests_skip
}.

(** [__get_yaml_field__], [get_regressions], [get_fixes].  [yaml.load] is the
    PyYAML parser: it returns a document or raises [YAMLError]. *)
Section YamlFields.
Context {doc : Type}.
Variable yaml_load : string -> result doc.
Variable empty_mapping : doc.

Definition get_yaml_field (field_value : option string) : result doc :=
  match field_value with
  | Some text => yaml_load text
  | None => Ok empty_mapping
  end.

Definition get_regressions (self : ProjectStatus) : result doc :=
  get_yaml_field (regressions self).

Definition get_fixes (self : ProjectStatus) : result doc :=
  get_yaml_field (fixes self).

End YamlFields.

(** ** The database and [ProjectStatus.create_or_update] *)

Section Snapshot.
Context {atom : Type}.

(** The tables read and written here: the builds, and the statuses keyed by
    the build they belong to ([build] is a [OneToOneField]). *)
Record DB : Type := mkDB {
  db_builds : list (Build atom);
  db_statuses : gmap Z ProjectStatus
}.

Record MetricsSummary : Type := mkMetricsSummary {
  ms_value : Q;
  ms_has_metrics : bool
}.

(** [squad.core.statistics.geomean] is not part of these sources. *)
Variable geomean : list Q -> Q.

Definition MetricsSummary_init (build : Build atom) : MetricsSummary :=
  let values := map metric_result (flat_map run_metrics (test_runs build)) in
  mkMetricsSummary (geomean values) (0 <? Z.of_nat (length values)).

(** How the database orders NULL: below every value (SQLite, MySQL) or
    above every value (PostgreSQL). *)
Variable nulls_smallest : bool.

Definition null_leb (a b : option Z) : bool :=
  match a, b with
  | None, None => true
  | None, Some _ => nulls_smallest
  | Some _, None => negb nulls_smallest
  | Some x, Some y => x <=? y
  end.

(** The rows of [Build.objects.filter(...).order_by('build__datetime')].
    On the [Build] model the lookup [build] is the reverse side of the
    foreign key [patch_baseline] (its default query name is the model name):
    the query joins every selected build with the builds that name it as
    their [patch_baseline], and the ordering column is the [datetime] of
    those builds, NULL when there is none. *)
Definition baseline_rows (db : DB) (b : Build atom) : list (Build atom * option Z) :=
  match List.filter (fun d => bool_decide (patch_baseline d = Some (build_id b))) (db_builds db) with
  | [] => [(b, None)]
  | ds => map (fun d => (b, Some (build_datetime d))) ds
  end.

(** [status__finished=True] *)
Definition status_finished (db : DB) (b : Build atom) : bool :=
  match db_statuses db !! build_id b with
  | Some st => finished st
  | None => false
  end.

(** [previous_build]: [.last()] of an ordered queryset is the first row of
    the reversed ordering. *)
Definition previous_build (db : DB) (build : Build atom) : option (Build atom) :=
  let selected :=
    List.filter
      (fun b =>
         status_finished db b
         && (build_datetime b <? build_datetime build)
         && (project_id (build_project b) =? project_id (build_project build)))
      (db_builds db) in
  let rows := flat_map (baseline_rows db) selected in
  match sort_by (fun r1 r2 => null_leb r2.2 r1.2) rows with
  | [] => None
  | r :: _ => Some r.1
  end.

(** [squad.core.comparison.TestComparison] and [yaml.dump] are not part of
    these sources: [cmap] is the type of [comparison.regressions] and
    [comparison.fixes], [cmap_truthy] its truth value. *)
Context {cmap : Type}.
Variable comparison_regressions : Build atom -> Build atom -> cmap.
Variable comparison_fixes : Build atom -> Build atom -> cmap.
Variable cmap_truthy : cmap -> bool.
Variable yaml_dump : cmap -> string.

(** [now] is the reading of [timezone.now()], [stamp] the reading that
    [auto_now_add] stores in [created_at] when the row is created. *)
Definition create_or_update (db : DB) (now stamp : Z) (build : Build atom) : result (DB * ProjectStatus) :=
  test_summary ← TestSummary_init build;
  let metrics_summary := MetricsSummary_init build in
  let runs_total := Z.of_nat (length (test_runs build)) in
  let runs_completed := Z.of_nat (length (List.filter completed (test_runs build))) in
  let runs_incomplete := Z.of_nat (length (List.filter (fun r => negb (completed r)) (test_runs build))) in
  let comparison :=
    match previous_build db build with
    | Some previous =>
        (if cmap_truthy (comparison_regressions previous build)
         then Some (yaml_dump (comparison_regressions previous build)) else None,
         if cmap_truthy (comparison_fixes previous build)
         then Some (yaml_dump (comparison_fixes previous build)) else None)
    | None => (None, None)
    end in
  fin ← Build_finished build;
  match db_statuses db !! build_id build with
  | None =>
      let status :=
        mkProjectStatus (build_id build) stamp (Some now) fin.1 false false false
          (ms_value metrics_summary) (ms_has_metrics metrics_summary)
          (tests_pass test_summary) (tests_fail test_summary)
          (tests_xfail test_summary) (tests_skip test_summary)
          runs_total runs_completed runs_incomplete comparison.1 comparison.2 in
      Ok (mkDB (db_builds db) (<[build_id build := status]> (db_statuses db)), status)
  | Some status =>
      if tests_total status <=? tests_total test_summary then
        fin ← Build_finished build;
        let status :=
          mkProjectStatus (build_id build) (created_at status) (Some now) fin.1
            (notified status) (notified_on_timeout status) (approved status)
            (ms_value metrics_summary) (ms_has_metrics metrics_summary)
            (tests_pass test_summary) (tests_fail test_summary)
            (tests_xfail test_summary) (tests_skip test_summary)
            runs_total runs_completed runs_incomplete comparison.1 comparison.2 in
        Ok (mkDB (db_builds db) (<[build_id build := status]> (db_statuses db)), status)
      else Ok (db, status)
  end.

End Snapshot.
Arguments DB atom : clear implicits.

(** ** [Build.important_metadata] and [Build.has_extra_metadata] *)

Section ImportantMetadata.
Context {atom : Type} `{PyAtom atom}.

(** [str.splitlines] of the Python library. *)
Variable splitlines : string -> list string.

(** [important_metadata_keys] is the text field of the project of the build
    ([self.project.important_metadata_keys]), null when it was never set. *)
Definition Build_important_metadata (important_metadata_keys : option string)
  (self : Build atom) : PyDict.t string (value atom) :=
  let wanted :=
    splitlines
      (match important_metadata_keys with
       | Some text => text
       | None => ""
       end) in
  let m := Build_metadata self in
  if 0 <? Z.of_nat (length wanted) then
    fold_left
      (fun d k =>
         match PyDict.get m k with
         | Some v => PyDict.set d k v
         | None => d
         end)
      wanted PyDict.empty
  else Build_metadata self.

(** [set(a) == set(b)] on lists of keys. *)
Definition same_key_set (a b : list string) : bool :=
  forallb (fun k => bool_decide (k ∈ b)) a && forallb (fun k => bool_decide (k ∈ a)) b.

Definition Build_has_extra_metadata (important_metadata_keys : option string)
  (self : Build atom) : bool :=
  if same_key_set
       (PyDict.keys (Build_important_metadata important_metadata_keys self))
       (PyDict.keys (Build_metadata self))
  then false else true.

End ImportantMetadata.

(** ** [ProjectStatus.get_previous] and [Project.status] *)

Section StatusQueries.
Context {atom : Type}.

(** The rows of [ProjectStatus.objects] joined with their build, for the
    builds a predicate selects. *)
Definition status_rows (db : DB atom) (select : ProjectStatus -> Build atom -> bool)
  : list (ProjectStatus * Build atom) :=
  flat_map
    (fun b =>
       match db_statuses db !! build_id b with
       | Some st => if select st b then [(st, b)] else []
       | None => []
       end)
    (db_builds db).

(** [get_previous]; [self_build] is [self.build].  [.last()] of the queryset
    ordered by ['build__datetime'] is the first row of the descending
    order. *)
Definition get_previous (db : DB atom) (self_build : Build atom) : option ProjectStatus :=
  let rows :=
    status_rows db
      (fun st b =>
         finished st
         && (build_datetime b <? build_datetime self_build)
         && (project_id (build_project b) =? project_id (build_project self_build))) in
  match sort_by (fun r1 r2 => build_datetime r2.2 <=? build_datetime r1.2) rows with
  | [] => None
  | r :: _ => Some r.1
  end.

(** [Project.status]: [.latest('created_at')] is the first row by descending
    [created_at]; [None] stands for the [DoesNotExist] it raises on an
    empty queryset. *)
Definition Project_status (db : DB atom) (self : Project) : option ProjectStatus :=
  let rows := status_rows db (fun st b => project_id (build_project b) =? project_id self) in
  match sort_by (fun r1 r2 => created_at r2.1 <=? created_at r1.1) rows with
  | [] => None
  | r :: _ => Some r.1
  end.

End StatusQueries.

(** ** [NotificationDelivery.exists] *)

Record NotificationDelivery : Type := mkNotificationDelivery {
  delivery_status : Z;
  delivery_subject : option string;
  delivery_txt : option string;
  delivery_html : option string
}.

#[global] Instance NotificationDelivery_eq_dec : EqDecision NotificationDelivery.
Proof. solve_decision. Defined.

Section Deliveries.

(** [sha1(text.encode()).hexdigest()] of [hashlib]. *)
Variable sha1_hexdigest : string -> string.

(** The table after the call and the value returned.  [status] is the key of
    the status row ([get_or_create] looks the four fields up and inserts
    the row when there is none). *)
Definition NotificationDelivery_exists (table : list NotificationDelivery)
  (status : Z) (subject txt html : string) : list NotificationDelivery * bool :=
  let subject_hash := sha1_hexdigest subject in
  let txt_hash := sha1_hexdigest txt in
  let html_hash := sha1_hexdigest html in
  let obj := mkNotificationDelivery status (Some subject_hash) (Some txt_hash) (Some html_hash) in
  let created := negb (bool_decide (obj ∈ table)) in
  (if created then table ++ [obj] else table, negb created).

End Deliveries.

(** ** Access control: [ProjectManager.accessible_to], [Project.accessible_to] *)

(** A user: the two flags and the ids of [user.groups.all()]. *)
Record User : Type := mkUser {
  is_superuser : bool;
  is_staff : bool;
  user_groups : list Z
}.

(** A group, with the ids of its [user_groups]. *)
Record Group : Type := mkGroup {
  group_id : Z;
  group_slug : string;
  group_user_groups : list Z
}.

(** A project row with the fields access control reads: its group
    ([self.group]), its slug and [is_public]. *)
Record ProjectAccess : Type := mkProjectAccess {
  access_project : Project;
  access_group : Group;
  access_slug : string;
  is_public : bool
}.

(** [group.user_groups.filter(id__in=user.groups.all())] *)
Definition shared_user_groups (g : Group) (user : User) : list Z :=
  List.filter (fun ug => bool_decide (ug ∈ user_groups user)) (group_user_groups g).

Definition Project_writable_by (self : ProjectAccess) (user : User) : bool :=
  is_superuser user || is_staff user
  || match shared_user_groups (access_group self) user with
     | [] => false
     | _ => true
     end.

Definition Project_accessible_to (self : ProjectAccess) (user : User) : bool :=
  is_public self || Project_writable_by self user.

Section Managers.
(** The order of the database on slugs (its collation). *)
Variable slug_leb : string -> string -> bool.

(** [Project.Meta.ordering = ['group', 'slug']]: by group, which is by the
    slug of the group ([Group.Meta.ordering = ['slug']]), then by the slug
    of the project.  No two rows are equal in both ([Group.slug] is unique,
    and [unique_together = ('group', 'slug')]), so that the order leaves no
    choice between rows. *)
Definition Project_ordering (p1 p2 : ProjectAccess) : bool :=
  let g1 := group_slug (access_group p1) in
  let g2 := group_slug (access_group p2) in
  if slug_leb g1 g2
  then (if slug_leb g2 g1 then slug_leb (access_slug p1) (access_slug p2) else true)
  else false.

(** [ProjectManager.accessible_to] over the tables of groups and projects:
    the rows the queryset yields, in the default ordering of [Project].
    The join [user_groups__in] yields a group once per user group it shares
    with the user. *)
Definition ProjectManager_accessible_to (groups : list Group) (projects : list ProjectAccess)
  (user : User) : list ProjectAccess :=
  sort_by Project_ordering
    (if is_superuser user || is_staff user then projects
     else
       let matched := flat_map (fun g => map (fun _ => g) (shared_user_groups g user)) groups in
       let group_ids := map group_id matched in
       List.filter
         (fun p => bool_decide (group_id (access_group p) ∈ group_ids) || is_public p)
         projects).

End Managers.

(** ** [Build.test_suites_by_environment] *)

(** A loop whose body may fail with a [KeyError]: [None] is the error. *)
Fixpoint fold_option {S A : Type} (body : S -> A -> option S) (items : list A) (s : S) : option S :=
  match items with
  | [] => Some s
  | x :: rest =>
      match body s x with
      | Some s' => fold_option body rest s'
      | None => None
      end
  end.

(** [{'fail': 0, 'pass': 0, 'skip': 0, 'xfail': 0}] *)
Definition new_counters : PyDict.t string Z :=
  [("fail", 0); ("pass", 0); ("skip", 0); ("xfail", 0)].

Section SuitesByEnvironment.
Context {atom : Type}.

(** [set([t.environment for t in test_runs])]: one instance per id, here in
    the order of first occurrence. *)
Definition environment_set (test_runs : list (TestRun atom)) : list Environment :=
  fold_left
    (fun seen tr =>
       if existsb (fun e => env_id e =? env_id (run_environment tr)) seen then seen
       else seen ++ [run_environment tr])
    test_runs [].

(** The body of the inner loop.  The dictionaries are keyed by the ids of the
    environment and of the suite and hold the key instance beside the
    value, so that the values of the inner dictionary are its Python
    items [(suite, counters)]. *)
Definition count_suite_test (tr : TestRun atom)
  (result : PyDict.t Z (Environment * PyDict.t Z (Suite * PyDict.t string Z))) (t : Test)
  : option (PyDict.t Z (Environment * PyDict.t Z (Suite * PyDict.t string Z))) :=
  match PyDict.get result (env_id (run_environment tr)) with
  | None => None
  | Some entry =>
      let suites :=
        if bool_decide (suite_id (test_suite t) ∈ PyDict.keys entry.2) then entry.2
        else PyDict.setdefault entry.2 (suite_id (test_suite t)) (test_suite t, new_counters) in
      match PyDict.get suites (suite_id (test_suite t)) with
      | None => None
      | Some cell =>
          match PyDict.get cell.2 (Test_status t) with
          | None => None
          | Some n =>
              Some (PyDict.set result (env_id (run_environment tr))
                      (entry.1,
                       PyDict.set suites (suite_id (test_suite t))
                         (cell.1, PyDict.set cell.2 (Test_status t) (n + 1))))
          end
      end
  end.

Definition Build_test_suites_by_environment (self : Build atom)
  : option (PyDict.t Z (Environment * list (Suite * PyDict.t string Z))) :=
  let test_runs := test_runs self in
  let envlist := environment_set test_runs in
  let result :=
    fold_left
      (fun result env => PyDict.set result (env_id env) (env, PyDict.empty))
      (sort_by (fun e1 e2 => String.leb (env_slug e1) (env_slug e2)) envlist)
      PyDict.empty in
  match
    fold_option
      (fun result tr => fold_option (count_suite_test tr) (run_tests tr) result)
      test_runs result
  with
  | None => None
  | Some result =>
      Some (map
              (fun item =>
                 (item.1,
                  (item.2.1,
                   sort_by (fun s1 s2 => String.leb (suite_slug s1.1) (suite_slug s2.1))
                     (PyDict.values item.2.2))))
              (PyDict.items result))
  end.

End SuitesByEnvironment.

(** * Reading the specification *)

(** ** Metadata: the values of a key, as the merge meets them *)

Section MetadataSpec.
Context {atom : Type} `{PyAtom atom}.

(** Every [(key, value)] item of the runs of a build, in iteration order. *)
Definition metadata_items (b : Build atom) : list (string * value atom) :=
  flat_map (fun r => PyDict.items (run_metadata r)) (test_runs b).

Definition values_of (key : string) (items : list (string * value atom)) : list (value atom) :=
  map snd (List.filter (fun item => bool_decide (item.1 = key)) items).

(** Deduplication by membership test, keeping first occurrences. *)
Definition add_distinct (seen : list (value atom)) (v : value atom) : list (value atom) :=
  if py_in v seen then seen else seen ++ [v].

Definition distinct (vs : list (value atom)) : list (value atom) :=
  fold_left add_distinct vs [].

(** The merged value of a key whose distinct values are [vs]. *)
Definition merged_value (vs : list (value atom)) : option (value atom) :=
  match vs with
  | [] => None
  | [v] => Some v
  | _ => Some (VList (sorted_by_str vs))
  end.

(** The reading in which a list-valued input stands for its elements. *)
Definition expand (v : value atom) : list (value atom) :=
  match v with
  | VList l => l
  | Atom _ => [v]
  end.

Definition metadata_expanded (b : Build atom) (key : string) : option (value atom) :=
  merged_value (distinct (flat_map expand (values_of key (metadata_items b)))).

End MetadataSpec.

(** ** Completion: the conditions on jobs and environments *)

Section FinishedSpec.
Context {atom : Type}.

(** No CI job of the build is still to be fetched. *)
Definition no_pending_jobs (b : Build atom) : Prop :=
  forall j, In j (test_jobs b) -> fetched j = true.

(** The number of completed test runs of the build in an environment. *)
Definition received (b : Build atom) (e : Environment) : Z :=
  Z.of_nat (length
    (List.filter (fun r => env_id (run_environment r) =? env_id e)
       (List.filter completed (test_runs b)))).

(** The condition on an environment in the words of the specification:
    nothing for 0, [received >= expected] for a positive number, and
    [received >= 1] when unset. *)
Definition env_claimed (b : Build atom) (e : Environment) : Prop :=
  match expected_test_runs e with
  | None => 1 <= received b e
  | Some n => if n =? 0 then True else if 0 <? n then n <= received b e else True
  end.

(** The condition the loop over [testruns] checks: an environment that is
    not ignored has received a run, and as many as expected. *)
Definition env_satisfied (b : Build atom) (e : Environment) : Prop :=
  match expected_test_runs e with
  | None => 1 <= received b e
  | Some n => n = 0 \/ (1 <= received b e /\ n <= received b e)
  end.

(** Every completed test run of the build is in an environment of the
    project of the build. *)
Definition runs_in_project (b : Build atom) : Prop :=
  forall r, In r (test_runs b) -> completed r = true ->
    In (env_id (run_environment r)) (map env_id (environments (build_project b))).

End FinishedSpec.

(** The [testruns] dictionary when the environment of id [i] has received
    [cnt i] runs, and the counts after one more run in environment [i]. *)
Definition counts_dict (envs : list Environment) (cnt : Z -> Z) : PyDict.t Z EnvCount :=
  map (fun e => (env_id e, mkEnvCount (Environment_str e) (expected_test_runs e) (cnt (env_id e)))) envs.

Definition bump (cnt : Z -> Z) (i : Z) : Z -> Z :=
  fun j => if decide (j = i) then cnt j + 1 else cnt j.

(** ** Test summary: tallies over the deduplicated tests *)

Section SummarySpec.
Context {atom : Type}.

(** The number of tests of a list with a given status. *)
Definition count_status (status : string) (tests : list (TestRow atom)) : Z :=
  Z.of_nat (length
    (List.filter (fun t => bool_decide (Test_status (row_test t) = status)) tests)).

(** The key under which a test enters the deduplication map. *)
Definition row_key (t : TestRow atom) : Z * Z * string :=
  test_key (row_run t) (row_test t).

(** Every test of the build, in the order the first loop meets them. *)
Definition rows_by_run (build : Build atom) : list (TestRow atom) :=
  flat_map (fun run => map (mkTestRow build run) (run_tests run)) (runs_by_id build).

(** The body of the first loop on a test with its relations. *)
Definition put_row (d : PyDict.t (Z * Z * string) (TestRow atom)) (t : TestRow atom)
  : PyDict.t (Z * Z * string) (TestRow atom) :=
  PyDict.set d (row_key t) t.

(** The counters of [s'] are those of [s] plus the tallies of [rows]. *)
Definition tallied (s s' : TestSummary atom) (rows : list (TestRow atom)) : Prop :=
  tests_pass s' = tests_pass s + count_status "pass" rows
  /\ tests_fail s' = tests_fail s + count_status "fail" rows
  /\ tests_xfail s' = tests_xfail s + count_status "xfail" rows
  /\ tests_skip s' = tests_skip s + count_status "skip" rows.

End SummarySpec.

(** ** Percentages: count/total x 100 in floating point *)



(** ** Test summary: the failing tests of an environment *)

Definition failing {atom : Type} (env : string) (tests : list (TestRow atom)) : list (TestRow atom) :=
  List.filter
    (fun t => bool_decide (Test_status (row_test t) = "fail")
              && bool_decide (env_slug (run_environment (row_run t)) = env))
    tests.

(** ** Statuses: the previous build, and the run counts *)

(** The build [b], with status [st], qualifies as previous to
    [self_build]: finished, strictly earlier, of the same project. *)
Definition previous_to {atom : Type} (self_build : Build atom) (st : ProjectStatus)
  (b : Build atom) : Prop :=
  finished st = true
  /\ build_datetime b < build_datetime self_build
  /\ project_id (build_project b) = project_id (build_project self_build).

(** The run counts of a status add up. *)
Definition runs_add_up (st : ProjectStatus) : Prop :=
  test_runs_total st = test_runs_completed st + test_runs_incomplete st.

(** ** Suites by environment: the tests of a cell *)

Section SuitesSpec.
Context {atom : Type}.

(** Every test of the build with its run, in the order of the loops of
    [test_suites_by_environment] (no deduplication). *)
Definition build_rows (b : Build atom) : list (TestRow atom) :=
  flat_map (fun r => map (mkTestRow b r) (run_tests r)) (test_runs b).

(** The test is in the environment of id [eid] and the suite of id [sid]. *)
Definition in_cell (eid sid : Z) (row : TestRow atom) : bool :=
  (env_id (run_environment (row_run row)) =? eid)
  && (suite_id (test_suite (row_test row)) =? sid).

(** The number of tests of a cell with a given status. *)
Definition cell_count (rows : list (TestRow atom)) (eid sid : Z) (status : string) : Z :=
  Z.of_nat (length
    (List.filter
       (fun row => in_cell eid sid row && bool_decide (Test_status (row_test row) = status))
       rows)).

(** The dictionary [result] has counted the tests [done]. *)
Definition counted (result : PyDict.t Z (Environment * PyDict.t Z (Suite * PyDict.t string Z)))
  (done : list (TestRow atom)) : Prop :=
  forall eid entry, PyDict.get result eid = Some entry ->
    NoDup (PyDict.keys entry.2)
    /\ forall sid,
         match PyDict.get entry.2 sid with
         | None => forall row, In row done -> in_cell eid sid row = false
         | Some cell =>
             suite_id cell.1 = sid
             /\ (exists row, In row done /\ in_cell eid sid row = true)
             /\ forall status, In status ["fail"; "pass"; "skip"; "xfail"] ->
                  PyDict.get cell.2 status = Some (cell_count done eid sid status)
         end.

End SuitesSpec.

(** * Sample data *)

Module Samples.

Definition board : Environment := mkEnvironment 1 "board" None (Some 2).
Definition emulator : Environment := mkEnvironment 2 "emulator" (Some "Emulator") None.
Definition retired : Environment := mkEnvironment 3 "retired" None (Some (-1)).

Definition project : Project := mkProject 1 [board; emulator].
Definition legacy : Project := mkProject 2 [retired].

Definition boot : Suite := mkSuite 1 "boot".
Definition login_failed : Test := mkTest 1 boot "login" (Some false) None.
Definition login_passed : Test := mkTest 2 boot "login" (Some true) None.

(** Two runs on the same board report the test boot/login; the first also
    reports a list-valued kernel, the second a single one. *)
Definition run1 : TestRun Z :=
  mkTestRun 1 board true [("kernel", VList [Atom 1; Atom 2])] [login_failed] [].
Definition run2 : TestRun Z :=
  mkTestRun 2 board true [("kernel", Atom 1)] [login_passed] [].
Definition run3 : TestRun Z :=
  mkTestRun 3 emulator true [] [] [].

Definition build3 : Build Z :=
  mkBuild 3 project 30 None [run2; run1; run3] [mkTestJob true].

(** A build of a project whose only environment expects -1 test runs; no
    run was received and no CI job was submitted. *)
Definition idle : Build Z := mkBuild 7 legacy 70 None [] [].

(** A build with one run, whose metadata is the merged metadata of
    [build3]. *)
Definition merged_run : TestRun Z :=
  mkTestRun 9 board true (Build_metadata build3) [] [].
Definition remerged : Build Z := mkBuild 9 project 90 None [merged_run] [].

Definition summary : TestSummary Z := mkTestSummary 3 1 1 0 PyDict.empty.

(** A stored status of [build3]. *)
Definition stored : ProjectStatus :=
  mkProjectStatus 3 25 (Some 25) false true false false 0%Q false 4 1 0 0 2 2 0 None None.

(** A stored status whose regressions field holds an unclosed flow mapping. *)
Definition unparsable : ProjectStatus :=
  mkProjectStatus 3 25 (Some 25) true false false false 0%Q false 1 0 0 0 1 1 0 (Some "{") None.

(** Two finished builds, a later build under recomputation, and two patch
    builds that name the finished builds as their baselines. *)
Definition finished_status (build : Z) : ProjectStatus :=
  mkProjectStatus build 0 None true false false false 0%Q false 0 0 0 0 0 0 0 None None.
Definition older : Build Z := mkBuild 1 project 10 None [] [].
Definition newer : Build Z := mkBuild 2 project 20 None [] [].
Definition patch_a : Build Z := mkBuild 4 project 40 (Some 2) [] [].
Definition patch_b : Build Z := mkBuild 5 project 50 (Some 1) [] [].

Definition database : DB Z :=
  mkDB [older; newer; build3; patch_a; patch_b]
    (<[1 := finished_status 1]> (<[2 := finished_status 2]> (<[3 := stored]> ∅))).

End Samples.

(** More sample data. *)

Module MoreSamples.

(** The sample build after one more run was received on the emulator. *)
Definition run4 : TestRun Z :=
  mkTestRun 4 Samples.emulator true [("kernel", Atom 3)] [] [].
Definition build3_later : Build Z :=
  mkBuild 3 Samples.project 30 None [Samples.run2; Samples.run1; Samples.run3; run4]
    [mkTestJob true].

(** A build with a single run. *)
Definition single : Build Z := mkBuild 8 Samples.project 80 None [Samples.run1] [].

(** Stand-ins for the collaborators of [create_or_update]: no metric value,
    empty comparisons, lists of names as comparison results. *)
Definition geomean : list Q -> Q := fun _ => 0%Q.
Definition no_changes : Build Z -> Build Z -> list string := fun _ _ => [].
Definition truthy : list string -> bool := fun m => negb (bool_decide (m = [])).
Definition dump : list string -> string := String.concat ",".

Definition create_or_update (db : DB Z) (now stamp : Z) (build : Build Z)
  : result (DB Z * ProjectStatus) :=
  create_or_update geomean true no_changes no_changes truthy dump db now stamp build.


(** A build whose only run was received in an environment of another
    project, its stored status, and the database that holds them. *)
Definition stray_run : TestRun Z :=
  mkTestRun 5 Samples.retired true [] [Samples.login_passed] [].
Definition stray : Build Z := mkBuild 6 Samples.project 60 None [stray_run] [].
Definition stray_stored : ProjectStatus :=
  mkProjectStatus 6 55 (Some 55) false false false false 0%Q false 4 1 0 0 1 1 0 None None.
Definition stray_database : DB Z := mkDB [stray] (<[6 := stray_stored]> ∅).

(** A private project of a group shared with the user, and a public one. *)
Definition lab : Group := mkGroup 1 "lab" [10; 11].
Definition guests : Group := mkGroup 2 "guests" [].
Definition member : User := mkUser false false [11; 12].
Definition private_project : ProjectAccess :=
  mkProjectAccess Samples.project lab "mainline" false.
Definition public_project : ProjectAccess :=
  mkProjectAccess Samples.legacy guests "legacy" true.

(** Three builds that ran boot/login on the board: failed, passed, passed. *)
Definition login (id : Z) (result : bool) : Test :=
  mkTest id Samples.boot "login" (Some result) None.
Definition login_run (id : Z) (result : bool) : TestRun Z :=
  mkTestRun id Samples.board true [] [login id result] [].
Definition login_build (id time : Z) (result : bool) : Build Z :=
  mkBuild id Samples.project time None [login_run id result] [].
Definition login_row (id time : Z) (result : bool) : TestRow Z :=
  mkTestRow (login_build id time result) (login_run id result) (login id result).
Definition login_builds : list (Build Z) :=
  [login_build 11 10 false; login_build 13 30 true; login_build 12 20 true].

End MoreSamples.

(** * Properties *)

(** ** Loops and dictionaries *)

Lemma for_each_total {S A : Type} (body : S -> A -> result S) (l : list A) (s : S) :
  (forall s x, exists s', body s x = Ok s') ->
  exists s', for_each body l s = Ok s'.
Proof.
  intros Hbody; revert s; induction l as [|x l IH]; intros s; simpl.
  - eauto.
  - destruct (Hbody s x) as [s1 ->]; simpl. apply IH.
Qed.

(** ** [Test.status] and the classification loop *)

Lemma Test_status_cases (t : Test) :
  Test_status t = "pass" \/ Test_status t = "fail"
  \/ Test_status t = "xfail" \/ Test_status t = "skip".
Proof.
  unfold Test_status.
  destruct (test_result t) as [[|]|]; [auto| |auto].
  destruct (has_known_issues t) as [[|]|]; auto.
Qed.

Lemma count_test_ok {atom : Type} (s : TestSummary atom) (item : Z * Z * string * TestRow atom) :
  exists s', count_test s item = Ok s'.
Proof.
  unfold count_test.
  destruct (Test_status_cases (row_test item.2)) as [E|[E|[E|E]]];
    rewrite E; simpl; eauto.
Qed.

Lemma TestSummary_init_ok {atom : Type} (build : Build atom) :
  exists s, TestSummary_init build = Ok s.
Proof. apply for_each_total. apply count_test_ok. Qed.

(** C10. [Test.status] is one of 'pass', 'fail', 'xfail' and 'skip' for every
    value of [result] and [has_known_issues], and the classification loop
    of [TestSummary] never raises [InvalidTestStatus]: it returns a
    summary for every build. *)
Theorem Test_status_closed {atom : Type} (t : Test) (build : Build atom) :
  In (Test_status t) ["pass"; "fail"; "xfail"; "skip"]
  /\ (forall (s : TestSummary atom) item status,
         count_test s item <> Raise (InvalidTestStatus status))
  /\ exists s, TestSummary_init build = Ok s.
Proof.
  split; [|split].
  - simpl. destruct (Test_status_cases t) as [E|[E|[E|E]]]; rewrite E; auto.
  - intros s item status. destruct (count_test_ok s item) as [s' ->]. discriminate.
  - apply TestSummary_init_ok.
Qed.

(** ** [TestSummaryBase] *)

(** *** Conversion of integers to doubles *)













(** *** [__percent__] *)



(** ** [ProjectStatus.get_regressions] *)

(** C8 (amended). A null stored field reads back as the empty mapping; a
    stored text is handed to [yaml.load] and its outcome is the outcome of
    the call: when the text does not parse, the [YAMLError] is raised to
    the caller. *)
Theorem get_regressions_reads {doc : Type} (yaml_load : string -> result doc)
  (empty_mapping : doc) (st : ProjectStatus) :
  match regressions st with
  | None => get_regressions yaml_load empty_mapping st = Ok empty_mapping
  | Some text => get_regressions yaml_load empty_mapping st = yaml_load text
  end
  /\ match fixes st with
     | None => get_fixes yaml_load empty_mapping st = Ok empty_mapping
     | Some text => get_fixes yaml_load empty_mapping st = yaml_load text
     end
  /\ (forall text, regressions st = Some text -> yaml_load text = Raise YAMLError ->
        get_regressions yaml_load empty_mapping st = Raise YAMLError)
  /\ (forall text, fixes st = Some text -> yaml_load text = Raise YAMLError ->
        get_fixes yaml_load empty_mapping st = Raise YAMLError).
Proof.
  unfold get_regressions, get_fixes, get_yaml_field.
  repeat split.
  - destruct (regressions st); reflexivity.
  - destruct (fixes st); reflexivity.
  - intros text -> ->. reflexivity.
  - intros text -> ->. reflexivity.
Qed.

(** ** Dictionary facts *)

Section DictFacts.
Context {K V : Type} `{EqDecision K}.
Implicit Types (d : PyDict.t K V) (k : K) (v : V).

Lemma get_set_eq d k v : PyDict.get (PyDict.set d k v) k = Some v.
Proof.
  induction d as [|[k' v'] d IH]; simpl.
  - destruct (decide (k = k)); congruence.
  - destruct (decide (k = k')) as [->|Hne]; simpl.
    + destruct (decide (k' = k')); congruence.
    + destruct (decide (k = k')); [contradiction|exact IH].
Qed.

Lemma get_set_ne d k k' v : k <> k' -> PyDict.get (PyDict.set d k v) k' = PyDict.get d k'.
Proof.
  intros Hne. induction d as [|[k0 v0] d IH]; simpl.
  - destruct (decide (k' = k)); congruence.
  - destruct (decide (k = k0)) as [->|Hk]; simpl.
    + destruct (decide (k' = k0)); congruence.
    + destruct (decide (k' = k0)); [reflexivity|exact IH].
Qed.

Lemma get_None_keys d k : PyDict.get d k = None <-> ~ In k (PyDict.keys d).
Proof.
  induction d as [|[k' v'] d IH]; simpl.
  - tauto.
  - destruct (decide (k = k')) as [->|Hne].
    + split; [discriminate|]. intros Hn. exfalso. apply Hn. auto.
    + rewrite IH. split; [intros Hn [E|Hin]; [congruence|auto] | tauto].
Qed.

Lemma get_Some_In d k v : PyDict.get d k = Some v -> In (k, v) d.
Proof.
  induction d as [|[k' v'] d IH]; simpl; [discriminate|].
  destruct (decide (k = k')) as [->|Hne].
  - intros [= ->]. auto.
  - auto.
Qed.

Lemma In_get_NoDup d k v : NoDup (PyDict.keys d) -> In (k, v) d -> PyDict.get d k = Some v.
Proof.
  induction d as [|[k' v'] d IH]; simpl; [tauto|].
  intros Hnd [E|Hin].
  - injection E as -> ->. destruct (decide (k = k)); congruence.
  - apply NoDup_cons in Hnd as [Hni Hnd].
    destruct (decide (k = k')) as [->|Hne].
    + exfalso. apply Hni, list_elem_of_In.
      change (In (fst (k', v)) (map fst d)). apply in_map, Hin.
    + auto.
Qed.

Lemma set_absent d k v : PyDict.get d k = None -> PyDict.set d k v = d ++ [(k, v)].
Proof.
  induction d as [|[k' v'] d IH]; simpl; [reflexivity|].
  destruct (decide (k = k')); [discriminate|].
  intros Hn. rewrite IH by exact Hn. reflexivity.
Qed.

Lemma keys_set_present d k v : PyDict.get d k <> None -> PyDict.keys (PyDict.set d k v) = PyDict.keys d.
Proof.
  induction d as [|[k' v'] d IH]; simpl; [congruence|].
  destruct (decide (k = k')) as [->|Hne]; simpl; [reflexivity|].
  intros Hn. f_equal. apply IH, Hn.
Qed.

Lemma NoDup_keys_set d k v : NoDup (PyDict.keys d) -> NoDup (PyDict.keys (PyDict.set d k v)).
Proof.
  intros Hnd. destruct (PyDict.get d k) eqn:E.
  - rewrite keys_set_present by congruence. exact Hnd.
  - rewrite set_absent by exact E. unfold PyDict.keys. rewrite map_app. simpl.
    apply NoDup_app. split; [exact Hnd|]. split.
    + intros x Hx [->|[]]%list_elem_of_In. apply get_None_keys in E. apply E.
      apply list_elem_of_In, Hx.
    + apply NoDup_singleton.
Qed.

Lemma NoDup_keys_setdefault d k v : NoDup (PyDict.keys d) -> NoDup (PyDict.keys (PyDict.setdefault d k v)).
Proof.
  intros Hnd. unfold PyDict.setdefault.
  destruct (PyDict.get d k); [exact Hnd|]. apply NoDup_keys_set, Hnd.
Qed.

Lemma get_setdefault_eq d k v :
  PyDict.get (PyDict.setdefault d k v) k = Some (default v (PyDict.get d k)).
Proof.
  unfold PyDict.setdefault. destruct (PyDict.get d k) eqn:E; simpl.
  - exact E.
  - apply get_set_eq.
Qed.

Lemma get_setdefault_ne d k k' v :
  k <> k' -> PyDict.get (PyDict.setdefault d k v) k' = PyDict.get d k'.
Proof.
  intros Hne. unfold PyDict.setdefault.
  destruct (PyDict.get d k); [reflexivity|]. apply get_set_ne, Hne.
Qed.

End DictFacts.

Lemma get_map_values {K V W : Type} `{EqDecision K} (f : V -> W) (d : PyDict.t K V) (k : K) :
  PyDict.get (map (fun item => (item.1, f item.2)) d) k = option_map f (PyDict.get d k).
Proof.
  induction d as [|[k' v'] d IH]; simpl; [reflexivity|].
  destruct (decide (k = k')); [reflexivity|exact IH].
Qed.

(** ** [Build.metadata] *)

Section MetadataFacts.
Context {atom : Type} `{PyAtom atom}.

Lemma merge_run_items (md : PyDict.t string (list (value atom))) (r : TestRun atom) :
  merge_run md r = fold_left merge_item (PyDict.items (run_metadata r)) md.
Proof. reflexivity. Qed.

Lemma merge_runs_items (runs : list (TestRun atom)) (md : PyDict.t string (list (value atom))) :
  fold_left merge_run runs md
  = fold_left merge_item (flat_map (fun r => PyDict.items (run_metadata r)) runs) md.
Proof.
  revert md; induction runs as [|r runs IH]; intros md; simpl; [reflexivity|].
  rewrite fold_left_app, IH, merge_run_items. reflexivity.
Qed.

Lemma get_merge_item_eq md (key : string) (v : value atom) :
  PyDict.get (merge_item md (key, v)) key
  = Some (add_distinct (default [] (PyDict.get md key)) v).
Proof.
  unfold merge_item, add_distinct; simpl.
  rewrite get_setdefault_eq; simpl.
  destruct (py_in v (default [] (PyDict.get md key))).
  - apply get_setdefault_eq.
  - apply get_set_eq.
Qed.

Lemma get_merge_item_ne md (key key' : string) (v : value atom) :
  key <> key' -> PyDict.get (merge_item md (key, v)) key' = PyDict.get md key'.
Proof.
  intros Hne. unfold merge_item; simpl.
  destruct (py_in v _).
  - apply get_setdefault_ne, Hne.
  - rewrite get_set_ne by exact Hne. apply get_setdefault_ne, Hne.
Qed.

Lemma NoDup_keys_merge_item md (item : string * value atom) :
  NoDup (PyDict.keys md) -> NoDup (PyDict.keys (merge_item md item)).
Proof.
  intros Hnd. unfold merge_item.
  destruct (py_in _ _).
  - apply NoDup_keys_setdefault, Hnd.
  - apply NoDup_keys_set, NoDup_keys_setdefault, Hnd.
Qed.

Lemma NoDup_keys_merge items md :
  NoDup (PyDict.keys md) -> NoDup (PyDict.keys (fold_left merge_item items md)).
Proof.
  revert md; induction items as [|it items IH]; intros md Hnd; simpl; [exact Hnd|].
  apply IH, NoDup_keys_merge_item, Hnd.
Qed.

(** What the first pass holds for a key: the distinct values met so far. *)
Lemma get_merge items md (key : string) :
  PyDict.get (fold_left merge_item items md) key
  = match PyDict.get md key, values_of key items with
    | None, [] => None
    | o, vs => Some (fold_left add_distinct vs (default [] o))
    end.
Proof.
  revert md; induction items as [|[k v] items IH]; intros md; simpl.
  - destruct (PyDict.get md key); reflexivity.
  - rewrite IH. unfold values_of; simpl.
    destruct (decide (k = key)) as [->|Hne].
    + rewrite bool_decide_eq_true_2 by reflexivity. simpl.
      rewrite get_merge_item_eq.
      destruct (PyDict.get md key); simpl;
        destruct (map snd _); reflexivity.
    + rewrite bool_decide_eq_false_2 by exact Hne.
      rewrite get_merge_item_ne by exact Hne. reflexivity.
Qed.

Lemma collapse_merged_value (vs : list (value atom)) :
  vs <> [] -> merged_value vs = Some (collapse vs).
Proof. destruct vs as [|v [|w vs]]; simpl; congruence. Qed.

Lemma add_distinct_nonempty (vs seen : list (value atom)) :
  seen <> [] -> fold_left add_distinct vs seen <> [].
Proof.
  revert seen; induction vs as [|v vs IH]; intros seen Hs; simpl; [exact Hs|].
  apply IH. unfold add_distinct. destruct (py_in v seen); [exact Hs|].
  destruct seen; simpl; congruence.
Qed.

Lemma distinct_nil_iff (vs : list (value atom)) : distinct vs = [] <-> vs = [].
Proof.
  split; [|intros ->; reflexivity].
  destruct vs as [|v vs]; [reflexivity|]. unfold distinct; simpl.
  intros E. exfalso. revert E. apply add_distinct_nonempty. discriminate.
Qed.

Lemma Build_metadata_merged (b : Build atom) (key : string) :
  PyDict.get (Build_metadata b) key
  = merged_value (distinct (values_of key (metadata_items b))).
Proof.
  unfold Build_metadata, PyDict.items. rewrite get_map_values, merge_runs_items, get_merge.
  fold (metadata_items b).
  destruct (values_of key (metadata_items b)) as [|v vs] eqn:E; [reflexivity|].
  cbn [PyDict.get PyDict.empty default option_map].
  symmetry. apply collapse_merged_value.
  intros E0. apply (distinct_nil_iff (v :: vs)) in E0. discriminate.
Qed.

(** C5 (amended). For every build and key, the merged metadata holds: nothing
    when no run has the key; otherwise the distinct values of the key across
    the runs, each value compared whole by membership test (a list-valued
    input is one value, it is not expanded): the value itself when there is
    exactly one, else the list of the distinct values sorted by their string
    representation. *)
Theorem Build_metadata_value (b : Build atom) (key : string) :
  PyDict.get (Build_metadata b) key
  = match distinct (values_of key (metadata_items b)) with
    | [] => None
    | [v] => Some v
    | vs => Some (VList (sorted_by_str vs))
    end.
Proof.
  rewrite Build_metadata_merged.
  destruct (distinct (values_of key (metadata_items b))) as [|v [|w vs]]; reflexivity.
Qed.

Lemma set_last (md : PyDict.t string (list (value atom))) (k : string) (x y : list (value atom)) :
  PyDict.get md k = None -> PyDict.set (md ++ [(k, x)]) k y = md ++ [(k, y)].
Proof.
  induction md as [|[k' v'] md IH]; simpl.
  - destruct (decide (k = k)); congruence.
  - destruct (decide (k = k')); [discriminate|]. intros Hn. rewrite IH by exact Hn. reflexivity.
Qed.

Lemma merge_item_fresh (md : PyDict.t string (list (value atom))) (k : string) (v : value atom) :
  PyDict.get md k = None -> merge_item md (k, v) = md ++ [(k, [v])].
Proof.
  intros Hn. unfold merge_item; simpl.
  unfold PyDict.setdefault. rewrite Hn, (set_absent md k []) by exact Hn.
  assert (Hg : PyDict.get (md ++ [(k, [])]) k = Some []).
  { rewrite <- (set_absent md k []) by exact Hn. apply get_set_eq. }
  rewrite Hg. simpl. apply set_last, Hn.
Qed.

(** Merging one map with distinct keys lists every value alone. *)
Lemma merge_single (m : PyDict.t string (value atom)) (md : PyDict.t string (list (value atom))) :
  NoDup (PyDict.keys m) ->
  (forall k, In k (PyDict.keys m) -> PyDict.get md k = None) ->
  fold_left merge_item m md = md ++ map (fun item => (item.1, [item.2])) m.
Proof.
  revert md; induction m as [|[k v] m IH]; intros md Hnd Hfresh; simpl.
  - symmetry; apply app_nil_r.
  - apply NoDup_cons in Hnd as [Hk Hnd].
    rewrite merge_item_fresh by (apply Hfresh; simpl; auto).
    rewrite IH; [rewrite <- app_assoc; reflexivity | exact Hnd |].
    intros k' Hk'. apply get_None_keys. unfold PyDict.keys. rewrite map_app. simpl.
    intros [Hin|[->|[]]]%in_app_or.
    + assert (Hf : PyDict.get md k' = None) by (apply Hfresh; simpl; auto).
      apply get_None_keys in Hf. exact (Hf Hin).
    + apply Hk, list_elem_of_In, Hk'.
Qed.

Lemma NoDup_keys_Build_metadata (b : Build atom) : NoDup (PyDict.keys (Build_metadata b)).
Proof.
  unfold Build_metadata, PyDict.keys, PyDict.items. rewrite map_map. simpl.
  rewrite merge_runs_items. apply NoDup_keys_merge. constructor.
Qed.

(** C6. The merge is idempotent: a build whose single test run carries, as
    its metadata, the merged metadata of a build [b] has the merged
    metadata of [b] as its own merged metadata. *)
Theorem Build_metadata_idempotent (b b' : Build atom) (r : TestRun atom) :
  test_runs b' = [r] ->
  run_metadata r = Build_metadata b ->
  Build_metadata b' = Build_metadata b.
Proof.
  intros Hruns Hmeta. unfold Build_metadata at 1. rewrite Hruns. simpl.
  rewrite merge_run_items, Hmeta. unfold PyDict.items.
  rewrite merge_single.
  - simpl. rewrite map_map. simpl. clear Hmeta.
    induction (Build_metadata b) as [|[k v] m IH]; simpl; [reflexivity|].
    rewrite IH. reflexivity.
  - apply NoDup_keys_Build_metadata.
  - reflexivity.
Qed.

End MetadataFacts.

(** ** [Build.finished] *)

Section FinishedFacts.
Context {atom : Type}.

Lemma counts_dict_ext (envs : list Environment) (cnt cnt' : Z -> Z) :
  (forall e, In e envs -> cnt (env_id e) = cnt' (env_id e)) ->
  counts_dict envs cnt = counts_dict envs cnt'.
Proof.
  intros Hext. unfold counts_dict. apply map_ext_in. intros e He. rewrite (Hext e He). reflexivity.
Qed.

Lemma testruns_initial (envs : list Environment) (d : PyDict.t Z EnvCount) :
  NoDup (map env_id envs) ->
  (forall e, In e envs -> PyDict.get d (env_id e) = None) ->
  fold_left
    (fun d e => PyDict.set d (env_id e) (mkEnvCount (Environment_str e) (expected_test_runs e) 0))
    envs d
  = d ++ counts_dict envs (fun _ => 0).
Proof.
  revert d; induction envs as [|e envs IH]; intros d Hnd Hfresh; simpl.
  - symmetry; apply app_nil_r.
  - apply NoDup_cons in Hnd as [He Hnd].
    rewrite set_absent by (apply Hfresh; simpl; auto).
    rewrite IH; [rewrite <- app_assoc; reflexivity | exact Hnd |].
    intros e' He'. apply get_None_keys. unfold PyDict.keys. rewrite map_app. simpl.
    intros [Hin|[E|[]]]%in_app_or.
    + assert (Hf : PyDict.get d (env_id e') = None) by (apply Hfresh; simpl; auto).
      apply get_None_keys in Hf. exact (Hf Hin).
    + apply He, list_elem_of_In. rewrite E. apply in_map, He'.
Qed.

Lemma count_run_counts (envs : list Environment) (cnt : Z -> Z) (t : TestRun atom) :
  NoDup (map env_id envs) ->
  In (env_id (run_environment t)) (map env_id envs) ->
  count_run (counts_dict envs cnt) t
  = Ok (counts_dict envs (bump cnt (env_id (run_environment t)))).
Proof.
  unfold count_run. generalize (env_id (run_environment t)) as i. intros i.
  induction envs as [|e envs IH]; simpl; [tauto|].
  intros Hnd Hin. apply NoDup_cons in Hnd as [He Hnd].
  destruct (decide (i = env_id e)) as [->|Hne].
  - simpl. destruct (decide (env_id e = env_id e)); [|congruence]. simpl.
    unfold bump at 1. destruct (decide (env_id e = env_id e)); [|congruence].
    do 2 f_equal. apply counts_dict_ext. intros e' He'. unfold bump.
    destruct (decide (env_id e' = env_id e)) as [E|]; [|reflexivity].
    exfalso. apply He, list_elem_of_In. rewrite <- E. apply in_map, He'.
  - destruct Hin as [E|Hin]; [congruence|].
    specialize (IH Hnd Hin).
    destruct (PyDict.get (counts_dict envs cnt) i) as [c|]; [|discriminate].
    simpl. destruct (decide (i = env_id e)); [contradiction|].
    injection IH as IH. rewrite IH.
    assert (Eb : bump cnt i (env_id e) = cnt (env_id e)).
    { unfold bump. destruct (decide (env_id e = i)); [congruence|reflexivity]. }
    unfold counts_dict at 2. simpl. rewrite Eb. reflexivity.
Qed.

Lemma count_runs_counts (envs : list Environment) (runs : list (TestRun atom)) (cnt : Z -> Z) :
  NoDup (map env_id envs) ->
  (forall r, In r runs -> In (env_id (run_environment r)) (map env_id envs)) ->
  for_each count_run runs (counts_dict envs cnt)
  = Ok (counts_dict envs
          (fun j => cnt j + Z.of_nat (length (List.filter (fun r => env_id (run_environment r) =? j) runs)))).
Proof.
  intros Hnd. revert cnt; induction runs as [|r runs IH]; intros cnt Hin; simpl.
  - f_equal. apply counts_dict_ext. intros; lia.
  - rewrite count_run_counts by (auto; apply Hin; simpl; auto). simpl.
    rewrite IH by (intros; apply Hin; simpl; auto).
    f_equal. apply counts_dict_ext. intros e _. unfold bump.
    destruct (decide (env_id e = env_id (run_environment r))) as [E|Hne].
    + rewrite E, Z.eqb_refl. simpl length. lia.
    + destruct (env_id (run_environment r) =? env_id e) eqn:Eb; [|lia].
      apply Z.eqb_eq in Eb. congruence.
Qed.

Lemma check_env_app (reasons : list string) (item : Z * EnvCount) :
  check_env reasons item = reasons ++ check_env [] item.
Proof.
  unfold check_env. destruct (bool_decide _); [symmetry; apply app_nil_r|].
  destruct (count_received item.2 =? 0), (count_expected item.2) as [n|]; simpl;
    try destruct (negb (n =? 0) && _); simpl;
    rewrite <- ?app_assoc, ?app_nil_r; reflexivity.
Qed.

Lemma fold_check_env (items : list (Z * EnvCount)) (reasons : list string) :
  fold_left check_env items reasons = reasons ++ flat_map (check_env []) items.
Proof.
  revert reasons; induction items as [|it items IH]; intros reasons; simpl.
  - symmetry; apply app_nil_r.
  - rewrite IH, (check_env_app reasons it), <- app_assoc. reflexivity.
Qed.

Lemma check_env_nil (i : Z) (name : string) (expected : option Z) (n : Z) :
  0 <= n ->
  check_env [] (i, mkEnvCount name expected n) = []
  <-> match expected with
      | None => 1 <= n
      | Some x => x = 0 \/ (1 <= n /\ x <= n)
      end.
Proof.
  intros Hn. unfold check_env; simpl.
  destruct expected as [x|].
  - destruct (decide (x = 0)) as [->|Hx].
    + rewrite bool_decide_eq_true_2 by reflexivity. tauto.
    + rewrite bool_decide_eq_false_2 by congruence.
      destruct (n =? 0) eqn:E0; simpl.
      * apply Z.eqb_eq in E0.
        split; [|lia]. destruct (negb (x =? 0) && (n <? x)); discriminate.
      * apply Z.eqb_neq in E0.
        assert (Ex : negb (x =? 0) = true) by (apply negb_true_iff, Z.eqb_neq, Hx).
        rewrite Ex; simpl.
        destruct (n <? x) eqn:El.
        -- apply Z.ltb_lt in El. split; [discriminate|lia].
        -- apply Z.ltb_ge in El. split; [intros _; right; lia|reflexivity].
  - rewrite bool_decide_eq_false_2 by discriminate.
    destruct (n =? 0) eqn:E0; simpl.
    + apply Z.eqb_eq in E0. split; [discriminate|lia].
    + apply Z.eqb_neq in E0. split; [lia|reflexivity].
Qed.

Lemma jobs_reason_nil (jobs : list TestJob) :
  (if 0 <? Z.of_nat (length jobs) then
     if 0 <? Z.of_nat (length (List.filter (fun j => negb (fetched j)) jobs)) then
       [] ++ ["There are unfinished CI jobs"]
     else []
   else []) = []
  <-> forall j, In j jobs -> fetched j = true.
Proof.
  induction jobs as [|j jobs IH]; simpl length.
  - simpl. split; [intros _ j []|reflexivity].
  - replace (0 <? Z.of_nat (S (length jobs))) with true by (symmetry; apply Z.ltb_lt; lia).
    simpl List.filter. destruct (fetched j) eqn:Ej; simpl negb; cbv iota.
    + destruct (0 <? Z.of_nat (length jobs)) eqn:El.
      * rewrite IH. split; [intros Hall j' [<-|Hin]; auto | intros Hall j' Hin; apply Hall; simpl; auto].
      * apply Z.ltb_ge in El. destruct jobs; [|simpl in El; lia].
        simpl. split; [intros _ j' [<-|[]]; exact Ej|reflexivity].
    + simpl length.
      replace (0 <? Z.of_nat (S _)) with true by (symmetry; apply Z.ltb_lt; lia).
      split; [discriminate|]. intros Hall. specialize (Hall j (or_introl eq_refl)). congruence.
Qed.

(** The outcome of [finished] on a build whose completed runs are in
    environments of its project. *)
Lemma Build_finished_eval (b : Build atom) :
  NoDup (map env_id (environments (build_project b))) ->
  runs_in_project b ->
  exists jobs_reason,
    (jobs_reason = [] <-> no_pending_jobs b)
    /\ let reasons :=
         jobs_reason ++
         flat_map (check_env [])
           (map (fun e => (env_id e,
                           mkEnvCount (Environment_str e) (expected_test_runs e) (received b e)))
              (environments (build_project b))) in
       Build_finished b = Ok (Z.of_nat (length reasons) =? 0, reasons).
Proof.
  intros Hnd Hwf. eexists. split; [apply jobs_reason_nil|].
  unfold Build_finished.
  rewrite testruns_initial by (auto; reflexivity). simpl app.
  rewrite count_runs_counts; [|exact Hnd|].
  - simpl. rewrite fold_check_env. reflexivity.
  - intros r [Hr Hc]%filter_In. apply Hwf; assumption.
Qed.

(** [finished] returns on such a build. *)
Lemma Build_finished_ok (b : Build atom) :
  NoDup (map env_id (environments (build_project b))) ->
  runs_in_project b ->
  exists fin reasons, Build_finished b = Ok (fin, reasons).
Proof.
  intros Hnd Hwf. destruct (Build_finished_eval b Hnd Hwf) as (jr & _ & E).
  eauto.
Qed.

Lemma received_nonneg (b : Build atom) (e : Environment) : 0 <= received b e.
Proof. unfold received. lia. Qed.

(** The two conditions on an environment differ only for a negative
    [expected_test_runs]. *)
Lemma env_satisfied_claimed (b : Build atom) (e : Environment) :
  (forall n, expected_test_runs e = Some n -> 0 <= n) ->
  env_satisfied b e <-> env_claimed b e.
Proof.
  intros Hpos. unfold env_satisfied, env_claimed.
  destruct (expected_test_runs e) as [n|]; [|reflexivity].
  specialize (Hpos n eq_refl).
  destruct (n =? 0) eqn:E0.
  - apply Z.eqb_eq in E0. tauto.
  - apply Z.eqb_neq in E0.
    destruct (0 <? n) eqn:Ep; [|apply Z.ltb_ge in Ep; lia].
    apply Z.ltb_lt in Ep. split; [intros [?|[_ ?]]; [contradiction|assumption]|].
    intros Hn. right. lia.
Qed.

Lemma flat_map_map_nil {A B C : Type} (f : B -> list C) (g : A -> B) (l : list A) :
  flat_map f (map g l) = [] <-> Forall (fun x => f (g x) = []) l.
Proof.
  induction l as [|x l IH]; simpl.
  - split; [constructor|reflexivity].
  - rewrite Forall_cons_iff, <- IH. split.
    + intros [H1 H2]%app_eq_nil. auto.
    + intros [-> ->]. reflexivity.
Qed.

(** C1 (amended). For a build whose completed test runs are in environments
    of its project (environment ids being distinct), [finished] returns a
    pair whose first component is true if and only if the reasons list is
    empty, which holds exactly when (a) no CI test job of the build is
    still to be fetched and (b) every environment of the project with
    [expected_test_runs != 0] has received at least one completed test run
    of the build and, when [expected_test_runs] is set, at least that
    many: at least [expected_test_runs] when it is positive, at least 1
    when it is unset or negative. *)
Theorem Build_finished_iff (b : Build atom) :
  NoDup (map env_id (environments (build_project b))) ->
  runs_in_project b ->
  exists fin reasons,
    Build_finished b = Ok (fin, reasons)
    /\ (fin = true <-> reasons = [])
    /\ (fin = true <->
        no_pending_jobs b /\ Forall (env_satisfied b) (environments (build_project b))).
Proof.
  intros Hnd Hwf. destruct (Build_finished_eval b Hnd Hwf) as (jr & Hjr & E).
  cbv zeta in E. do 2 eexists. split; [exact E|].
  match type of E with _ = Ok (_, ?rs) => set (reasons := rs) in * end.
  assert (Hfin : (Z.of_nat (length reasons) =? 0) = true <-> reasons = []).
  { rewrite Z.eqb_eq. destruct reasons; simpl; split; try congruence; lia. }
  split; [exact Hfin|]. rewrite Hfin. subst reasons.
  assert (Hsplit : forall l1 l2 : list string, l1 ++ l2 = [] <-> l1 = [] /\ l2 = []).
  { intros l1 l2. split; [apply app_eq_nil|intros [-> ->]; reflexivity]. }
  rewrite Hsplit, Hjr, flat_map_map_nil.
  apply and_iff_compat_l. apply Forall_iff. intros e.
  unfold env_satisfied. apply check_env_nil, received_nonneg.
Qed.

End FinishedFacts.

(** ** [order_by] *)

Section SortFacts.
Context {A : Type} (le : A -> A -> bool).

Lemma insert_by_perm (x : A) (l : list A) : Permutation (insert_by le x l) (x :: l).
Proof.
  induction l as [|y l IH]; simpl; [reflexivity|].
  destruct (le x y); [reflexivity|].
  rewrite IH. apply perm_swap.
Qed.

Lemma sort_by_perm (l : list A) : Permutation (sort_by le l) l.
Proof.
  induction l as [|x l IH]; simpl; [reflexivity|].
  rewrite insert_by_perm. constructor. exact IH.
Qed.

Lemma In_sort_by (x : A) (l : list A) : In x (sort_by le l) <-> In x l.
Proof.
  split; apply Permutation_in; [|symmetry]; apply sort_by_perm.
Qed.

Hypothesis le_total : forall x y, le x y = false -> le y x = true.
Hypothesis le_trans : forall x y z, le x y = true -> le y z = true -> le x z = true.

Lemma insert_by_sorted (x : A) (l : list A) :
  StronglySorted (fun a b => le a b = true) l ->
  StronglySorted (fun a b => le a b = true) (insert_by le x l).
Proof.
  induction 1 as [|y l Hs IH Hy]; simpl.
  - repeat constructor.
  - destruct (le x y) eqn:E.
    + constructor; [constructor; assumption|].
      constructor; [exact E|].
      eapply List.Forall_impl; [|exact Hy]. intros z Hz. eapply le_trans; eauto.
    + constructor; [exact IH|].
      apply List.Forall_forall. intros z Hz.
      apply (Permutation_in _ (insert_by_perm x l)) in Hz. destruct Hz as [<-|Hz].
      * apply le_total, E.
      * rewrite List.Forall_forall in Hy. auto.
Qed.

Lemma sort_by_sorted (l : list A) : StronglySorted (fun a b => le a b = true) (sort_by le l).
Proof.
  induction l as [|x l IH]; simpl; [constructor|].
  apply insert_by_sorted, IH.
Qed.

End SortFacts.

Lemma StronglySorted_weaken {A : Type} (R S : A -> A -> Prop) (l : list A) :
  (forall x y, R x y -> S x y) -> StronglySorted R l -> StronglySorted S l.
Proof.
  intros HRS. induction 1 as [|x l Hs IH Hx]; constructor; [exact IH|].
  eapply List.Forall_impl; [|exact Hx]. intros y. apply HRS.
Qed.

(** ** [Test.history] *)

Section HistoryFacts.
Context {atom : Type}.

Lemma history_loop_spec (self : TestRow atom) (tests : list (TestRow atom))
  (s : option (TestRow atom)) (c : Z) :
  exists same rest,
    tests = same ++ rest
    /\ Forall (fun t => test_result (row_test t) = test_result (row_test self)) same
    /\ match rest with
       | [] => True
       | d :: _ => test_result (row_test d) <> test_result (row_test self)
       end
    /\ history_loop self tests s c
       = mkHistory (match last same with Some t => Some t | None => s end)
           (c + Z.of_nat (length same)) (head rest).
Proof.
  revert s c; induction tests as [|t tests IH]; intros s c; simpl.
  - exists [], []. simpl. repeat split; [constructor | f_equal; lia].
  - destruct (decide (test_result (row_test t) = test_result (row_test self))) as [E|Hne].
    + rewrite bool_decide_eq_true_2 by exact E.
      destruct (IH (Some t) (c + 1)) as (same & rest & -> & Hsame & Hrest & Eh).
      exists (t :: same), rest. repeat split; [constructor; assumption | exact Hrest |].
      rewrite Eh, last_cons. f_equal; [destruct (last same); reflexivity|simpl length; lia].
    + rewrite bool_decide_eq_false_2 by exact Hne.
      exists [], (t :: tests). simpl. repeat split; [constructor | exact Hne | f_equal; lia].
Qed.

(** C7. [history] walks [previous_tests]: exactly the other tests of the same
    suite, name and environment whose build is strictly earlier than the
    build of this test, newest first.  The walk splits them into the
    leading tests whose raw result equals the result of this test and the
    rest: [count] is the number of leading tests, [since] the last (oldest)
    of them, and [last_different] the first test of the rest, whose result
    differs; with no previous test the history is (null, 0, null). *)
Theorem Test_history_walk (builds : list (Build atom)) (self : TestRow atom) :
  let previous := previous_tests builds self in
  (forall t, In t previous <->
     In t (all_tests builds)
     /\ suite_id (test_suite (row_test t)) = suite_id (test_suite (row_test self))
     /\ test_name (row_test t) = test_name (row_test self)
     /\ env_id (run_environment (row_run t)) = env_id (run_environment (row_run self))
     /\ build_datetime (row_build t) < build_datetime (row_build self)
     /\ test_id (row_test t) <> test_id (row_test self))
  /\ StronglySorted
       (fun t1 t2 => build_datetime (row_build t2) <= build_datetime (row_build t1)) previous
  /\ (exists same rest,
        previous = same ++ rest
        /\ Forall (fun t => test_result (row_test t) = test_result (row_test self)) same
        /\ match rest with
           | [] => True
           | d :: _ => test_result (row_test d) <> test_result (row_test self)
           end
        /\ count (Test_history builds self) = Z.of_nat (length same)
        /\ since (Test_history builds self) = last same
        /\ last_different (Test_history builds self) = head rest)
  /\ (previous = [] -> Test_history builds self = mkHistory None 0 None).
Proof.
  intros previous. split; [|split; [|split]].
  - intros t. unfold previous, previous_tests.
    rewrite In_sort_by, !filter_In, !andb_true_iff, negb_true_iff.
    rewrite !Z.eqb_eq, Z.eqb_neq, Z.ltb_lt, String.eqb_eq. tauto.
  - unfold previous, previous_tests.
    eapply StronglySorted_weaken; [|apply sort_by_sorted].
    + intros t1 t2 Hle. apply Z.leb_le, Hle.
    + intros x y Hxy. apply Z.leb_gt in Hxy. apply Z.leb_le. lia.
    + intros x y z Hxy Hyz. apply Z.leb_le in Hxy, Hyz. apply Z.leb_le. lia.
  - unfold Test_history. fold previous.
    destruct (history_loop_spec self previous None 0) as (same & rest & Ep & Hs & Hr & Eh).
    exists same, rest. rewrite Eh. simpl.
    repeat split; try assumption. destruct (last same); reflexivity.
  - unfold Test_history. fold previous. intros ->. reflexivity.
Qed.

End HistoryFacts.

(** ** [TestSummary]: deduplication and tallies *)

Section SummaryFacts.
Context {atom : Type}.
Implicit Types (d : PyDict.t (Z * Z * string) (TestRow atom)) (rows : list (TestRow atom)).

Lemma collect_tests_rows (build : Build atom) :
  collect_tests build = fold_left put_row (rows_by_run build) PyDict.empty.
Proof.
  unfold collect_tests, rows_by_run. generalize (@PyDict.empty (Z * Z * string) (TestRow atom)).
  induction (runs_by_id build) as [|run runs IH]; intros d; simpl; [reflexivity|].
  rewrite fold_left_app, IH. f_equal.
  generalize d. induction (run_tests run) as [|t ts IHt]; intros d'; simpl; [reflexivity|].
  apply IHt.
Qed.

(** The map holds, for a key, the last test met with that key. *)
Lemma get_collect rows d (k : Z * Z * string) :
  PyDict.get (fold_left put_row rows d) k
  = match last (List.filter (fun t => bool_decide (row_key t = k)) rows) with
    | Some t => Some t
    | None => PyDict.get d k
    end.
Proof.
  revert d; induction rows as [|t rows IH]; intros d; simpl; [reflexivity|].
  rewrite IH. destruct (decide (row_key t = k)) as [E|Hne].
  - rewrite bool_decide_eq_true_2 by exact E. rewrite last_cons.
    destruct (last _); [reflexivity|]. unfold put_row. rewrite E. apply get_set_eq.
  - rewrite bool_decide_eq_false_2 by exact Hne.
    destruct (last _); [reflexivity|]. unfold put_row. apply get_set_ne, Hne.
Qed.

Lemma NoDup_keys_collect rows d :
  NoDup (PyDict.keys d) -> NoDup (PyDict.keys (fold_left put_row rows d)).
Proof.
  revert d; induction rows as [|t rows IH]; intros d Hnd; simpl; [exact Hnd|].
  apply IH, NoDup_keys_set, Hnd.
Qed.

Lemma In_set_inv {K V : Type} `{EqDecision K} (d : PyDict.t K V) (k k' : K) (v v' : V) :
  In (k', v') (PyDict.set d k v) -> (k', v') = (k, v) \/ In (k', v') d.
Proof.
  induction d as [|[k0 v0] d IH]; simpl.
  - intros [E|[]]; auto.
  - destruct (decide (k = k0)) as [->|Hne]; simpl.
    + intros [E|Hin]; auto.
    + intros [E|Hin]; auto. destruct (IH Hin); auto.
Qed.

Lemma keyed_collect rows d :
  (forall k t, In (k, t) d -> k = row_key t) ->
  forall k t, In (k, t) (fold_left put_row rows d) -> k = row_key t.
Proof.
  revert d; induction rows as [|t0 rows IH]; intros d Hd; simpl; [exact Hd|].
  apply IH. intros k t Hin. apply In_set_inv in Hin as [E|Hin]; [|auto].
  injection E as -> ->. reflexivity.
Qed.

(** The tests are met in ascending order of run id. *)
Lemma StronglySorted_app {A : Type} (R : A -> A -> Prop) (l1 l2 : list A) :
  StronglySorted R l1 -> StronglySorted R l2 ->
  (forall x y, In x l1 -> In y l2 -> R x y) ->
  StronglySorted R (l1 ++ l2).
Proof.
  induction 1 as [|x l1 Hs IH Hx]; intros H2 Hc; simpl; [exact H2|].
  constructor.
  - apply IH; [exact H2|]. intros; apply Hc; simpl; auto.
  - apply List.Forall_app. split; [exact Hx|].
    apply List.Forall_forall. intros y Hy. apply Hc; simpl; auto.
Qed.

Lemma rows_by_run_sorted (build : Build atom) :
  StronglySorted (fun t1 t2 => run_id (row_run t1) <= run_id (row_run t2)) (rows_by_run build).
Proof.
  unfold rows_by_run, runs_by_id.
  assert (Hs := sort_by_sorted (fun r1 r2 : TestRun atom => run_id r1 <=? run_id r2)).
  specialize (Hs ltac:(intros x y Hxy; apply Z.leb_gt in Hxy; apply Z.leb_le; lia)).
  specialize (Hs ltac:(intros x y z Hxy Hyz; apply Z.leb_le in Hxy, Hyz; apply Z.leb_le; lia)).
  specialize (Hs (test_runs build)).
  induction Hs as [|run runs Hs IH Hrun]; simpl; [constructor|].
  apply StronglySorted_app; [|exact IH|].
  - induction (run_tests run) as [|t ts IHt]; simpl; constructor; [exact IHt|].
    apply List.Forall_forall. intros x [t' [<- _]]%in_map_iff. simpl. lia.
  - intros x y [t' [<- _]]%in_map_iff [run' [Hrun' [t'' [<- _]]%in_map_iff]]%in_flat_map.
    simpl. rewrite List.Forall_forall in Hrun. apply Z.leb_le, Hrun, Hrun'.
Qed.

Lemma In_rows_by_run (build : Build atom) (t : TestRow atom) :
  In t (rows_by_run build)
  <-> row_build t = build /\ In (row_run t) (test_runs build) /\ In (row_test t) (run_tests (row_run t)).
Proof.
  unfold rows_by_run. rewrite in_flat_map. split.
  - intros [run [Hrun [t' [<- Ht']]%in_map_iff]]. simpl.
    apply In_sort_by in Hrun. auto.
  - intros (Eb & Hrun & Ht). exists (row_run t). split; [apply In_sort_by, Hrun|].
    apply in_map_iff. exists (row_test t). split; [|exact Ht].
    destruct t; simpl in *; congruence.
Qed.

Lemma StronglySorted_filter {A : Type} (R : A -> A -> Prop) (f : A -> bool) (l : list A) :
  StronglySorted R l -> StronglySorted R (List.filter f l).
Proof.
  induction 1 as [|x l Hs IH Hx]; simpl; [constructor|].
  destruct (f x); [|exact IH]. constructor; [exact IH|].
  apply List.Forall_forall. intros y [Hy _]%filter_In.
  rewrite List.Forall_forall in Hx. auto.
Qed.

Lemma StronglySorted_last {A : Type} (R : A -> A -> Prop) (l : list A) (x y : A) :
  StronglySorted R l -> last l = Some x -> In y l -> y = x \/ R y x.
Proof.
  induction 1 as [|z l Hs IH Hz]; simpl; [tauto|].
  rewrite last_cons. destruct (last l) as [w|] eqn:El.
  - intros [= ->] [->|Hy].
    + right. rewrite List.Forall_forall in Hz. apply Hz.
      apply list_elem_of_In, last_Some_elem_of, El.
    + apply IH; auto.
  - intros [= ->] [->|Hy]; [auto|].
    apply last_None in El. subst l. destruct Hy.
Qed.

Lemma count_status_cons (status : string) (t : TestRow atom) rows :
  count_status status (t :: rows)
  = (if bool_decide (Test_status (row_test t) = status) then 1 else 0) + count_status status rows.
Proof.
  unfold count_status; simpl. destruct (bool_decide _); simpl length; lia.
Qed.

Lemma count_test_tally (s s' : TestSummary atom) (item : Z * Z * string * TestRow atom) :
  count_test s item = Ok s' -> tallied s s' [item.2].
Proof.
  unfold count_test, tallied. rewrite !count_status_cons.
  destruct (Test_status_cases (row_test item.2)) as [E|[E|[E|E]]];
    rewrite E; simpl; intros [= <-]; simpl; unfold count_status; simpl; lia.
Qed.

Lemma for_each_tally (items : list (Z * Z * string * TestRow atom)) (s s' : TestSummary atom) :
  for_each count_test items s = Ok s' -> tallied s s' (PyDict.values items).
Proof.
  revert s; induction items as [|item items IH]; intros s; simpl.
  - intros [= <-]. unfold tallied, count_status; simpl. lia.
  - destruct (count_test s item) as [s1|e] eqn:E1; simpl; [|discriminate].
    intros E2. apply count_test_tally in E1. apply IH in E2.
    unfold tallied in *. cbn [PyDict.values map].
    rewrite !(count_status_cons _ item.2).
    rewrite !count_status_cons in E1.
    change (count_status _ []) with 0 in E1.
    cbn [tests_pass tests_fail tests_xfail tests_skip TestSummary_base] in *.
    repeat match goal with
           | |- context [bool_decide ?P] => destruct (bool_decide P)
           end; lia.
Qed.

(** The counters of a summary are counts. *)
Lemma TestSummary_init_nonneg (build : Build atom) (s : TestSummary atom) :
  TestSummary_init build = Ok s ->
  0 <= tests_pass s /\ 0 <= tests_fail s /\ 0 <= tests_xfail s /\ 0 <= tests_skip s.
Proof.
  intros Es. apply for_each_tally in Es. unfold tallied, count_status in Es.
  cbn [tests_pass tests_fail tests_xfail tests_skip TestSummary_base ts_tests_pass
       ts_tests_fail ts_tests_xfail ts_tests_skip] in *. lia.
Qed.

(** C4. When a build holds a test [t1] in run [r1] and a test [t2] in run
    [r2] with the same (environment, suite, name) key, [r1] having the lower
    id, and no other test of the build has that key, the deduplication map
    holds [t2] of [r2] under the key and does not hold [t1] of [r1]; every
    key occurs once in the map, and the four counters of the summary are
    the tallies by status of the tests of the map. *)
Theorem TestSummary_dedup (build : Build atom) (r1 r2 : TestRun atom) (t1 t2 : Test) :
  In r1 (test_runs build) -> In t1 (run_tests r1) ->
  In r2 (test_runs build) -> In t2 (run_tests r2) ->
  run_id r1 < run_id r2 ->
  test_key r1 t1 = test_key r2 t2 ->
  (forall r t, In r (test_runs build) -> In t (run_tests r) ->
     test_key r t = test_key r2 t2 -> (r = r1 /\ t = t1) \/ (r = r2 /\ t = t2)) ->
  let tests := collect_tests build in
  PyDict.get tests (test_key r2 t2) = Some (mkTestRow build r2 t2)
  /\ ~ In (mkTestRow build r1 t1) (PyDict.values tests)
  /\ NoDup (PyDict.keys tests)
  /\ exists s, TestSummary_init build = Ok s
       /\ tests_pass s = count_status "pass" (PyDict.values tests)
       /\ tests_fail s = count_status "fail" (PyDict.values tests)
       /\ tests_xfail s = count_status "xfail" (PyDict.values tests)
       /\ tests_skip s = count_status "skip" (PyDict.values tests).
Proof.
  intros Hr1 Ht1 Hr2 Ht2 Hlt Hkey Honly tests.
  assert (Hget : PyDict.get tests (test_key r2 t2) = Some (mkTestRow build r2 t2)).
  { unfold tests. rewrite collect_tests_rows, get_collect.
    set (same := List.filter _ _).
    assert (Hin2 : In (mkTestRow build r2 t2) same).
    { apply filter_In. split; [apply In_rows_by_run; simpl; auto|].
      apply bool_decide_eq_true_2. reflexivity. }
    destruct (last same) as [x|] eqn:El.
    - assert (Hx : In x same) by (apply list_elem_of_In, last_Some_elem_of, El).
      apply filter_In in Hx as [Hx Hk]. apply bool_decide_eq_true_1 in Hk.
      apply In_rows_by_run in Hx as (Eb & Hxr & Hxt).
      destruct (Honly _ _ Hxr Hxt Hk) as [[Er Et]|[Er Et]].
      + exfalso.
        destruct (StronglySorted_last _ same x (mkTestRow build r2 t2)
                    (StronglySorted_filter _ _ _ (rows_by_run_sorted build)) El Hin2) as [E|Hle].
        * rewrite <- E in Er. simpl in Er. subst r1. lia.
        * simpl in Hle. rewrite Er in Hle. lia.
      + f_equal. destruct x; simpl in *; congruence.
    - apply last_None in El. rewrite El in Hin2. destruct Hin2. }
  assert (Hnd : NoDup (PyDict.keys tests)).
  { unfold tests. rewrite collect_tests_rows. apply NoDup_keys_collect. constructor. }
  split; [exact Hget|]. split; [|split; [exact Hnd|]].
  - intros [[k t] [Et Hin]]%in_map_iff. simpl in Et. subst t.
    assert (Hk : k = row_key (mkTestRow build r1 t1)).
    { unfold tests in Hin. rewrite collect_tests_rows in Hin.
      eapply keyed_collect; [|exact Hin]. intros ? ? []. }
    unfold row_key in Hk; simpl in Hk. rewrite Hkey in Hk. subst k.
    apply In_get_NoDup in Hin; [|exact Hnd].
    rewrite Hget in Hin. injection Hin as E _. subst r1. lia.
  - destruct (TestSummary_init_ok build) as [s Es]. exists s. split; [exact Es|].
    apply for_each_tally in Es. unfold tallied in Es. simpl in Es.
    fold tests in Es. unfold PyDict.items in Es. tauto.
Qed.

End SummaryFacts.

(** ** [ProjectStatus.create_or_update] *)

Section SnapshotFacts.
Context {atom cmap : Type}.
Variable geomean : list Q -> Q.
Variable nulls_smallest : bool.
Variable comparison_regressions comparison_fixes : Build atom -> Build atom -> cmap.
Variable cmap_truthy : cmap -> bool.
Variable yaml_dump : cmap -> string.

Local Abbreviation create_or_update' :=
  (create_or_update geomean nulls_smallest comparison_regressions comparison_fixes
     cmap_truthy yaml_dump).

Lemma baseline_rows_fst (db : DB atom) (b : Build atom) (r : Build atom * option Z) :
  In r (baseline_rows db b) -> r.1 = b.
Proof.
  unfold baseline_rows. destruct (List.filter _ (db_builds db)).
  - simpl. intros [<-|[]]. reflexivity.
  - intros [d [<- _]]%in_map_iff. reflexivity.
Qed.

Lemma baseline_rows_nonempty (db : DB atom) (b : Build atom) :
  exists r, In r (baseline_rows db b).
Proof.
  unfold baseline_rows. destruct (List.filter _ (db_builds db)); simpl; eauto.
Qed.

(** The build [previous_build] returns is one of the selected builds: of the
    same project, strictly earlier, with a finished status. *)
Lemma previous_build_selected (db : DB atom) (build previous : Build atom) :
  previous_build nulls_smallest db build = Some previous ->
  In previous (db_builds db)
  /\ status_finished db previous = true
  /\ build_datetime previous < build_datetime build
  /\ project_id (build_project previous) = project_id (build_project build).
Proof.
  unfold previous_build.
  destruct (sort_by _ _) as [|r rows] eqn:E; [discriminate|].
  intros [= <-].
  assert (Hr : In r (sort_by (fun r1 r2 => null_leb nulls_smallest r2.2 r1.2)
                       (flat_map (baseline_rows db)
                          (List.filter
                             (fun b => status_finished db b
                                       && (build_datetime b <? build_datetime build)
                                       && (project_id (build_project b) =? project_id (build_project build)))
                             (db_builds db))))).
  { rewrite E. simpl; auto. }
  apply In_sort_by in Hr. apply in_flat_map in Hr as [b [Hb Hrow]].
  rewrite (baseline_rows_fst db b r Hrow). apply filter_In in Hb as [Hin Hb].
  rewrite !andb_true_iff, Z.ltb_lt, Z.eqb_eq in Hb. tauto.
Qed.

(** No build is returned exactly when no build is selected. *)
Lemma previous_build_None (db : DB atom) (build : Build atom) :
  previous_build nulls_smallest db build = None
  <-> forall b, In b (db_builds db) ->
        ~ (status_finished db b = true
           /\ build_datetime b < build_datetime build
           /\ project_id (build_project b) = project_id (build_project build)).
Proof.
  unfold previous_build.
  set (selected := List.filter _ (db_builds db)).
  assert (Hsel : forall b, In b selected <->
            In b (db_builds db) /\ status_finished db b = true
            /\ build_datetime b < build_datetime build
            /\ project_id (build_project b) = project_id (build_project build)).
  { intros b. unfold selected. rewrite filter_In, !andb_true_iff, Z.ltb_lt, Z.eqb_eq. tauto. }
  destruct (sort_by _ _) as [|r rows] eqn:E.
  - split; [|reflexivity]. intros _ b Hb Hq.
    assert (Hin : In b selected) by (apply Hsel; tauto).
    destruct (baseline_rows_nonempty db b) as [row Hrow].
    assert (Hs : In row (flat_map (baseline_rows db) selected))
      by (apply in_flat_map; eauto).
    apply (In_sort_by (fun r1 r2 => null_leb nulls_smallest r2.2 r1.2)) in Hs.
    rewrite E in Hs. destruct Hs.
  - split; [discriminate|]. intros Hnone. exfalso.
    assert (Hr : In r (flat_map (baseline_rows db) selected)).
    { apply (In_sort_by (fun r1 r2 => null_leb nulls_smallest r2.2 r1.2)). rewrite E. simpl; auto. }
    apply in_flat_map in Hr as [b [Hb _]]. apply Hsel in Hb. apply (Hnone b); tauto.
Qed.

(** C2 (amended). For a build that already has a status and whose completed
    runs are in environments of its project, these having distinct ids (so
    that [finished] returns): when the
    fresh [tests_total] is strictly less than the stored one, the call
    returns the stored status and leaves the database as it is, without
    raising; when it is at least the stored one, the counters, the metrics
    summary, [last_updated], [finished], the run counts and the
    regressions and fixes are overwritten in place with the fresh values,
    the other fields being kept.  In both cases the stored [tests_total]
    does not decrease and the status of no other build changes. *)
Theorem create_or_update_guard (db : DB atom) (now stamp : Z) (build : Build atom)
  (st : ProjectStatus) :
  NoDup (map env_id (environments (build_project build))) ->
  runs_in_project build ->
  db_statuses db !! build_id build = Some st ->
  exists summary fin reasons,
    TestSummary_init build = Ok summary
    /\ Build_finished build = Ok (fin, reasons)
    /\ (tests_total summary < tests_total st ->
        create_or_update' db now stamp build = Ok (db, st))
    /\ (tests_total st <= tests_total summary ->
        exists st',
          create_or_update' db now stamp build
          = Ok (mkDB (db_builds db) (<[build_id build := st']> (db_statuses db)), st')
          /\ tests_pass st' = tests_pass summary
          /\ tests_fail st' = tests_fail summary
          /\ tests_xfail st' = tests_xfail summary
          /\ tests_skip st' = tests_skip summary
          /\ metrics_summary st' = ms_value (MetricsSummary_init geomean build)
          /\ has_metrics st' = ms_has_metrics (MetricsSummary_init geomean build)
          /\ last_updated st' = Some now
          /\ finished st' = fin
          /\ test_runs_total st' = Z.of_nat (length (test_runs build))
          /\ test_runs_completed st'
             = Z.of_nat (length (List.filter completed (test_runs build)))
          /\ test_runs_incomplete st'
             = Z.of_nat (length (List.filter (fun r => negb (completed r)) (test_runs build)))
          /\ regressions st'
             = match previous_build nulls_smallest db build with
               | Some previous =>
                   if cmap_truthy (comparison_regressions previous build)
                   then Some (yaml_dump (comparison_regressions previous build)) else None
               | None => None
               end
          /\ fixes st'
             = match previous_build nulls_smallest db build with
               | Some previous =>
                   if cmap_truthy (comparison_fixes previous build)
                   then Some (yaml_dump (comparison_fixes previous build)) else None
               | None => None
               end
          /\ status_build st' = build_id build
          /\ created_at st' = created_at st
          /\ notified st' = notified st
          /\ notified_on_timeout st' = notified_on_timeout st
          /\ approved st' = approved st)
    /\ (forall db' st',
          create_or_update' db now stamp build = Ok (db', st') ->
          db_statuses db' !! build_id build = Some st'
          /\ tests_total st <= tests_total st'
          /\ db_builds db' = db_builds db
          /\ forall other, other <> build_id build ->
               db_statuses db' !! other = db_statuses db !! other).
Proof.
  intros Hnd Hwf Hst.
  destruct (TestSummary_init_ok build) as [summary Es].
  destruct (Build_finished_ok build Hnd Hwf) as (fin & reasons & Ef).
  exists summary, fin, reasons. split; [exact Es|]. split; [exact Ef|].
  unfold create_or_update. rewrite Es, Ef. simpl. rewrite Hst.
  split; [|split].
  - intros Hlt. apply Z.leb_gt in Hlt. rewrite Hlt. reflexivity.
  - intros Hle. apply Z.leb_le in Hle. rewrite Hle.
    eexists. split; [reflexivity|]. simpl.
    destruct (previous_build nulls_smallest db build); simpl; repeat split; reflexivity.
  - intros db' st'. destruct (tests_total st <=? tests_total summary) eqn:Eg.
    + intros [= <- <-]. simpl. apply Z.leb_le in Eg.
      rewrite lookup_insert_eq. repeat split; [exact Eg|].
      intros other Hne. apply lookup_insert_ne. congruence.
    + intros [= <- <-]. repeat split; [exact Hst|lia].
Qed.

End SnapshotFacts.

(** * The properties on the sample data *)

Lemma Build_finished_iff_sample :
  exists fin reasons,
    Build_finished Samples.build3 = Ok (fin, reasons)
    /\ (fin = true <-> reasons = [])
    /\ (fin = true <->
        no_pending_jobs Samples.build3
        /\ Forall (env_satisfied Samples.build3) (environments (build_project Samples.build3))).
Proof.
  apply (Build_finished_iff Samples.build3).
  - apply (bool_decide_unpack _). vm_compute. exact I.
  - intros r [<-|[<-|[<-|[]]]] _; simpl; auto.
Defined.

(** With [expected_test_runs = -1] and no run received the build is not
    finished, although no job is pending and the condition in the words of
    the specification holds for every environment. *)
Lemma Build_finished_negative_expected :
  Build_finished Samples.idle = Ok (false, ["No test runs for retired received so far"])
  /\ no_pending_jobs Samples.idle
  /\ Forall (env_claimed Samples.idle) (environments (build_project Samples.idle)).
Proof.
  split; [reflexivity|]. split.
  - intros j [].
  - repeat constructor.
Qed.

Lemma TestSummary_dedup_sample :
  let tests := collect_tests Samples.build3 in
  PyDict.get tests (test_key Samples.run2 Samples.login_passed)
  = Some (mkTestRow Samples.build3 Samples.run2 Samples.login_passed)
  /\ ~ In (mkTestRow Samples.build3 Samples.run1 Samples.login_failed) (PyDict.values tests)
  /\ NoDup (PyDict.keys tests)
  /\ exists s, TestSummary_init Samples.build3 = Ok s
       /\ tests_pass s = count_status "pass" (PyDict.values tests)
       /\ tests_fail s = count_status "fail" (PyDict.values tests)
       /\ tests_xfail s = count_status "xfail" (PyDict.values tests)
       /\ tests_skip s = count_status "skip" (PyDict.values tests).
Proof.
  apply (TestSummary_dedup Samples.build3 Samples.run1 Samples.run2
           Samples.login_failed Samples.login_passed).
  - simpl; auto.
  - simpl; auto.
  - simpl; auto.
  - simpl; auto.
  - simpl; lia.
  - reflexivity.
  - intros r t Hr Ht _. destruct Hr as [<-|[<-|[<-|[]]]]; simpl in Ht;
      [destruct Ht as [<-|[]]; auto | destruct Ht as [<-|[]]; auto | destruct Ht].
Defined.

(** The list-valued kernel of one run stays one value next to the kernel of
    the other run: the merged value is [1, [1, 2]], where the reading that
    expands list-valued inputs gives [1, 2]. *)
Lemma Build_metadata_keeps_lists :
  PyDict.get (Build_metadata Samples.build3) "kernel"
  = Some (VList [Atom 1; VList [Atom 1; Atom 2]])
  /\ metadata_expanded Samples.build3 "kernel" = Some (VList [Atom 1; Atom 2])
  /\ PyDict.get (Build_metadata Samples.build3) "kernel"
     <> metadata_expanded Samples.build3 "kernel".
Proof.
  split; [reflexivity|]. split; [reflexivity|]. discriminate.
Qed.

Lemma Build_metadata_idempotent_sample :
  Build_metadata Samples.remerged = Build_metadata Samples.build3.
Proof.
  apply (Build_metadata_idempotent Samples.build3 Samples.remerged Samples.merged_run);
    reflexivity.
Defined.



(** One test of three passes: the percentage is the double
    33.33333333333333, that is 4691249611844266 / 2 ^ 47, which is not the
    third of 100. *)
Lemma pass_percentage_third :
  pass_percentage (mkTestSummary (atom := Z) 1 1 0 1 PyDict.empty)
  = Ok (PyFloat (S754_finite false 4691249611844266 (-47)))
  /\ 3 * 4691249611844266 <> 100 * 2 ^ 47.
Proof. split; [vm_compute; reflexivity|discriminate]. Qed.

(** Reading back a stored status whose regressions do not parse raises. *)
Lemma get_regressions_raises :
  regressions Samples.unparsable = Some "{"
  /\ forall (doc : Type) (yaml_load : string -> result doc) (empty_mapping : doc),
       yaml_load "{" = Raise YAMLError ->
       get_regressions yaml_load empty_mapping Samples.unparsable = Raise YAMLError
       /\ ~ exists d, get_regressions yaml_load empty_mapping Samples.unparsable = Ok d.
Proof.
  split; [reflexivity|]. intros doc yaml_load empty_mapping Hraise.
  unfold get_regressions, get_yaml_field. simpl. rewrite Hraise.
  split; [reflexivity|]. intros [d Hd]. discriminate.
Qed.

(** C3. On the sample database the baseline chosen for the build of time 30
    is the finished build of time 10, although the finished build of time
    20 of the same project is later and still strictly earlier than 30: the
    rows are ordered by the time of the builds that name them as
    [patch_baseline], not by their own time.  This holds for either
    placement of NULL. *)
Theorem previous_build_not_latest (nulls_smallest : bool) :
  previous_build nulls_smallest Samples.database Samples.build3 = Some Samples.older
  /\ status_finished Samples.database Samples.newer = true
  /\ project_id (build_project Samples.newer) = project_id (build_project Samples.build3)
  /\ build_datetime Samples.older < build_datetime Samples.newer
  /\ build_datetime Samples.newer < build_datetime Samples.build3.
Proof.
  split; [destruct nulls_smallest; vm_compute; reflexivity|].
  split; [vm_compute; reflexivity|].
  split; [reflexivity|]. split; reflexivity.
Qed.

(** The stored status of the sample build counts five tests, the fresh summary
    one: the update is dropped. *)
Lemma create_or_update_guard_sample :
  db_statuses Samples.database !! build_id Samples.build3 = Some Samples.stored
  /\ exists summary fin reasons,
       TestSummary_init Samples.build3 = Ok summary
       /\ Build_finished Samples.build3 = Ok (fin, reasons)
       /\ (tests_total summary < tests_total Samples.stored ->
           create_or_update (fun _ => 0%Q) true
             (fun _ _ => @nil string) (fun _ _ => @nil string)
             (fun m => negb (bool_decide (m = []))) (String.concat ",")
             Samples.database 31 31 Samples.build3
           = Ok (Samples.database, Samples.stored)).
Proof.
  assert (Hst : db_statuses Samples.database !! build_id Samples.build3 = Some Samples.stored)
    by (vm_compute; reflexivity).
  split; [exact Hst|].
  destruct (create_or_update_guard (fun _ => 0%Q) true
              (fun _ _ => @nil string) (fun _ _ => @nil string)
              (fun m => negb (bool_decide (m = []))) (String.concat ",")
              Samples.database 31 31 Samples.build3 Samples.stored)
    as (summary & fin & reasons & Es & Ef & Hdrop & _).
  - apply (bool_decide_unpack _). vm_compute. exact I.
  - intros r [<-|[<-|[<-|[]]]] _; simpl; auto.
  - exact Hst.
  - exists summary, fin, reasons. auto.
Defined.

(** A build with a stored status of five tests whose only run, of one test,
    was received in an environment of another project: the fresh total is
    below the stored one, and the call raises [KeyError] where the update
    was to be dropped. *)
Lemma create_or_update_guard_stray :
  db_statuses MoreSamples.stray_database !! build_id MoreSamples.stray
  = Some MoreSamples.stray_stored
  /\ (exists summary,
        TestSummary_init MoreSamples.stray = Ok summary
        /\ tests_total summary < tests_total MoreSamples.stray_stored)
  /\ MoreSamples.create_or_update MoreSamples.stray_database 61 61 MoreSamples.stray
     = Raise (KeyError 3).
Proof.
  split; [vm_compute; reflexivity|]. split; [|vm_compute; reflexivity].
  eexists. split; [vm_compute; reflexivity|]. vm_compute. reflexivity.
Qed.

(** * Further properties of the models *)

(** ** [TestSummary]: what is counted and what is listed *)

Lemma In_keys_set {K V : Type} `{EqDecision K} (d : PyDict.t K V) (k k' : K) (v : V) :
  In k (PyDict.keys (PyDict.set d k' v)) <-> k = k' \/ In k (PyDict.keys d).
Proof.
  induction d as [|[k0 v0] d IH]; simpl.
  - split; [intros [E|[]]; auto | intros [E|[]]; auto].
  - destruct (decide (k' = k0)) as [->|Hne]; simpl.
    + split; [intros [E|Hin]; auto | intros [E|[E|Hin]]; auto].
    + rewrite IH. split; [intros [E|[E|Hin]]; auto | intros [E|[E|Hin]]; auto].
Qed.

Section SummaryMore.
Context {atom : Type}.

Lemma count_status_total (rows : list (TestRow atom)) :
  count_status "pass" rows + count_status "fail" rows
  + count_status "xfail" rows + count_status "skip" rows
  = Z.of_nat (length rows).
Proof.
  induction rows as [|t rows IH].
  - reflexivity.
  - rewrite !count_status_cons. simpl length.
    destruct (Test_status_cases (row_test t)) as [E|[E|[E|E]]]; rewrite E; simpl; lia.
Qed.

Lemma In_keys_collect (rows : list (TestRow atom)) (d : PyDict.t (Z * Z * string) (TestRow atom))
  (k : Z * Z * string) :
  In k (PyDict.keys (fold_left put_row rows d))
  <-> In k (PyDict.keys d) \/ exists t, In t rows /\ row_key t = k.
Proof.
  revert d; induction rows as [|t0 rows IH]; intros d; simpl.
  - split; [auto|]. intros [Hin|[t [[] _]]]. exact Hin.
  - rewrite IH. unfold put_row. rewrite In_keys_set. split.
    + intros [[->|Hin]|[t [Ht Ek]]]; eauto.
    + intros [Hin|[t [[<-|Ht] Ek]]]; eauto.
Qed.

(** Every distinct (environment, suite, name) key of the tests of a build is
    counted exactly once: the keys of the deduplication map are distinct,
    they are the keys of the tests of the build, and [tests_total] is their
    number. *)
Theorem TestSummary_counts_keys (build : Build atom) :
  exists s,
    TestSummary_init build = Ok s
    /\ NoDup (PyDict.keys (collect_tests build))
    /\ (forall k, In k (PyDict.keys (collect_tests build)) <->
          exists r t, In r (test_runs build) /\ In t (run_tests r) /\ test_key r t = k)
    /\ tests_total s = Z.of_nat (length (PyDict.keys (collect_tests build))).
Proof.
  destruct (TestSummary_init_ok build) as [s Es]. exists s. split; [exact Es|].
  split; [|split].
  - rewrite collect_tests_rows. apply NoDup_keys_collect. constructor.
  - intros k. rewrite collect_tests_rows, In_keys_collect. split.
    + intros [[]|[t [Ht Ek]]]. apply In_rows_by_run in Ht as (_ & Hr & Ht).
      exists (row_run t), (row_test t). auto.
    + intros (r & t & Hr & Ht & Ek). right. exists (mkTestRow build r t).
      split; [apply In_rows_by_run; simpl; auto | exact Ek].
  - apply for_each_tally in Es. unfold tallied in Es.
    unfold tests_total. destruct Es as (-> & -> & -> & ->).
    cbn [tests_pass tests_fail tests_xfail tests_skip TestSummary_base ts_tests_pass
         ts_tests_fail ts_tests_xfail ts_tests_skip].
    unfold PyDict.items.
    pose proof (count_status_total (PyDict.values (collect_tests build))) as Ht.
    unfold PyDict.keys, PyDict.values in *. rewrite length_map in *. lia.
Qed.

Lemma listed_append (d : PyDict.t string (list (TestRow atom))) (env : string) (t : TestRow atom) :
  let fs := PyDict.setdefault d env [] in
  length (concat (PyDict.values (PyDict.set fs env (default [] (PyDict.get fs env) ++ [t]))))
  = S (length (concat (PyDict.values d))).
Proof.
  induction d as [|[k v] d IH]; simpl.
  - unfold PyDict.setdefault; simpl.
    destruct (decide (env = env)); [|congruence]. simpl.
    destruct (decide (env = env)); [|congruence]. reflexivity.
  - unfold PyDict.setdefault in *; simpl.
    destruct (decide (env = k)) as [->|Hne]; simpl.
    + destruct (decide (k = k)); [|congruence]. simpl.
      rewrite !length_app. simpl. lia.
    + simpl in IH. destruct (PyDict.get d env) eqn:Eg; simpl.
      * destruct (decide (env = k)); [contradiction|]. rewrite Eg. simpl.
        destruct (decide (env = k)); [contradiction|]. simpl.
        rewrite length_app. rewrite Eg in IH. simpl in IH. rewrite IH, length_app. lia.
      * destruct (decide (env = k)); [contradiction|]. simpl.
        destruct (decide (env = k)); [contradiction|]. simpl.
        rewrite length_app. rewrite IH, length_app. lia.
Qed.

Lemma count_test_failures (s s' : TestSummary atom) (item : Z * Z * string * TestRow atom) :
  count_test s item = Ok s' ->
  (forall env,
     PyDict.get (failures s') env
     = if bool_decide (Test_status (row_test item.2) = "fail")
          && bool_decide (env_slug (run_environment (row_run item.2)) = env)
       then Some (default [] (PyDict.get (failures s) env) ++ [item.2])
       else PyDict.get (failures s) env)
  /\ Z.of_nat (length (concat (PyDict.values (failures s')))) - tests_fail s'
     = Z.of_nat (length (concat (PyDict.values (failures s)))) - tests_fail s.
Proof.
  unfold count_test.
  destruct (Test_status_cases (row_test item.2)) as [E|[E|[E|E]]];
    rewrite E; simpl; intros [= <-]; simpl; try (split; [reflexivity|lia]).
  split.
  - intros env. destruct (decide (env_slug (run_environment (row_run item.2)) = env)) as [<-|Hne].
    + rewrite bool_decide_eq_true_2 by reflexivity.
      rewrite get_set_eq, get_setdefault_eq. simpl. reflexivity.
    + rewrite bool_decide_eq_false_2 by exact Hne.
      rewrite get_set_ne, get_setdefault_ne by exact Hne. reflexivity.
  - rewrite (listed_append (failures s)). lia.
Qed.

Lemma for_each_failures (items : list (Z * Z * string * TestRow atom)) (s s' : TestSummary atom) :
  for_each count_test items s = Ok s' ->
  (forall env,
     PyDict.get (failures s') env
     = match PyDict.get (failures s) env, failing env (PyDict.values items) with
       | None, [] => None
       | o, l => Some (default [] o ++ l)
       end)
  /\ Z.of_nat (length (concat (PyDict.values (failures s')))) - tests_fail s'
     = Z.of_nat (length (concat (PyDict.values (failures s)))) - tests_fail s.
Proof.
  revert s; induction items as [|item items IH]; intros s; simpl.
  - intros [= <-]. split; [|reflexivity]. intros env.
    destruct (PyDict.get (failures s) env); simpl; [rewrite app_nil_r|]; reflexivity.
  - destruct (count_test s item) as [s1|e] eqn:E1; simpl; [|discriminate].
    intros E2. apply count_test_failures in E1 as [G1 D1]. apply IH in E2 as [G2 D2].
    split; [|cbn [tests_fail TestSummary_base] in *; lia].
    intros env. rewrite G2, G1. unfold failing. cbn [PyDict.values map List.filter].
    destruct (bool_decide _ && bool_decide _); simpl.
    + destruct (PyDict.get (failures s) env); simpl; rewrite <- ?app_assoc; reflexivity.
    + reflexivity.
Qed.

(** The failures of a summary list, under each environment slug, the tests
    of the deduplication map that failed in that environment, in the order
    of the map; an environment without failure has no entry; and the
    number of tests listed is [tests_fail]. *)
Theorem TestSummary_failures (build : Build atom) :
  exists s,
    TestSummary_init build = Ok s
    /\ (forall env,
          PyDict.get (failures s) env
          = match failing env (PyDict.values (collect_tests build)) with
            | [] => None
            | l => Some l
            end)
    /\ Z.of_nat (length (concat (PyDict.values (failures s)))) = tests_fail s.
Proof.
  destruct (TestSummary_init_ok build) as [s Es]. exists s. split; [exact Es|].
  apply for_each_failures in Es as [G D]. split.
  - intros env. rewrite G. simpl. unfold PyDict.items.
    destruct (failing env _); reflexivity.
  - cbn [failures tests_fail TestSummary_base ts_tests_fail PyDict.values PyDict.empty
         map concat length] in D.
    change (tests_fail s) with (ts_tests_fail s). lia.
Qed.

End SummaryMore.

(** ** [Build.finished]: the exception, and more runs *)

Section FinishedMore.
Context {atom : Type}.

Lemma In_keys_testruns (envs : list Environment) (d : PyDict.t Z EnvCount) (i : Z) :
  In i (PyDict.keys
          (fold_left
             (fun d e => PyDict.set d (env_id e)
                           (mkEnvCount (Environment_str e) (expected_test_runs e) 0))
             envs d))
  <-> In i (PyDict.keys d) \/ In i (map env_id envs).
Proof.
  revert d; induction envs as [|e envs IH]; intros d; simpl; [tauto|].
  rewrite IH, In_keys_set. split.
  - intros [[->|Hin]|Hin]; auto.
  - intros [Hin|[<-|Hin]]; auto.
Qed.

Lemma count_run_present (d : PyDict.t Z EnvCount) (t : TestRun atom) :
  In (env_id (run_environment t)) (PyDict.keys d) ->
  exists d', count_run d t = Ok d' /\ PyDict.keys d' = PyDict.keys d.
Proof.
  intros Hin. unfold count_run.
  destruct (PyDict.get d (env_id (run_environment t))) as [c|] eqn:Eg.
  - eexists; split; [reflexivity|]. apply keys_set_present. congruence.
  - apply get_None_keys in Eg. contradiction.
Qed.

Lemma count_run_absent (d : PyDict.t Z EnvCount) (t : TestRun atom) :
  ~ In (env_id (run_environment t)) (PyDict.keys d) ->
  count_run d t = Raise (KeyError (env_id (run_environment t))).
Proof.
  intros Hout. unfold count_run.
  destruct (PyDict.get d (env_id (run_environment t))) as [c|] eqn:Eg; [|reflexivity].
  exfalso. apply Hout. apply get_Some_In in Eg.
  change (In (fst (env_id (run_environment t), c)) (map fst d)). apply in_map, Eg.
Qed.

(** The loop over the completed runs stops at the first run whose
    environment is not a key of the dictionary. *)
Lemma count_runs_outcome (runs : list (TestRun atom)) (d : PyDict.t Z EnvCount) :
  match List.find
          (fun r => negb (bool_decide (env_id (run_environment r) ∈ PyDict.keys d))) runs with
  | Some r => for_each count_run runs d = Raise (KeyError (env_id (run_environment r)))
  | None => exists d', for_each count_run runs d = Ok d'
  end.
Proof.
  revert d; induction runs as [|r runs IH]; intros d; simpl; [eauto|].
  destruct (decide (env_id (run_environment r) ∈ PyDict.keys d)) as [Hin|Hout].
  - rewrite (bool_decide_eq_true_2 _ Hin). simpl.
    destruct (count_run_present d r) as (d1 & -> & Ek); [apply list_elem_of_In, Hin|].
    simpl. specialize (IH d1). rewrite Ek in IH. exact IH.
  - rewrite (bool_decide_eq_false_2 _ Hout). simpl.
    rewrite count_run_absent; [reflexivity|]. intros Hin. apply Hout, list_elem_of_In, Hin.
Qed.

(** [finished] raises [KeyError] exactly when a completed test run of the
    build is in an environment that is not an environment of the project:
    the key of the error is the environment id of the first such run.
    Otherwise it returns. *)
Theorem Build_finished_raises (b : Build atom) :
  match List.find
          (fun r => negb (bool_decide (env_id (run_environment r)
                                       ∈ map env_id (environments (build_project b)))))
          (List.filter completed (test_runs b)) with
  | Some r => Build_finished b = Raise (KeyError (env_id (run_environment r)))
  | None => exists fin reasons, Build_finished b = Ok (fin, reasons)
  end.
Proof.
  unfold Build_finished.
  set (testruns := fold_left _ (environments (build_project b)) PyDict.empty).
  assert (Hfind :
    List.find (fun r => negb (bool_decide (env_id (run_environment r) ∈ PyDict.keys testruns)))
      (List.filter completed (test_runs b))
    = List.find (fun r => negb (bool_decide (env_id (run_environment r)
                                             ∈ map env_id (environments (build_project b)))))
        (List.filter completed (test_runs b))).
  { induction (List.filter completed (test_runs b)) as [|r rs IH]; simpl; [reflexivity|].
    assert (Eb : bool_decide (env_id (run_environment r) ∈ PyDict.keys testruns)
                 = bool_decide (env_id (run_environment r)
                                ∈ map env_id (environments (build_project b)))).
    { apply bool_decide_ext. rewrite !list_elem_of_In. unfold testruns.
      rewrite In_keys_testruns. simpl. tauto. }
    rewrite Eb. destruct (negb _); [reflexivity|]. apply IH. }
  pose proof (count_runs_outcome (List.filter completed (test_runs b)) testruns) as Hout.
  rewrite <- Hfind.
  destruct (List.find _ _) as [r|].
  - rewrite Hout. reflexivity.
  - destruct Hout as [d' ->]. simpl. eauto.
Qed.

Lemma Build_finished_Ok_in_project (b : Build atom) (fin : bool) (reasons : list string) :
  Build_finished b = Ok (fin, reasons) -> runs_in_project b.
Proof.
  intros E. pose proof (Build_finished_raises b) as Hr.
  destruct (List.find _ _) as [r|] eqn:Ef; [congruence|].
  intros r Hin Hc.
  pose proof (find_none _ _ Ef r) as Hn. simpl in Hn.
  specialize (Hn ltac:(apply filter_In; auto)).
  apply negb_false_iff, bool_decide_eq_true_1 in Hn. apply list_elem_of_In, Hn.
Qed.

Lemma Build_finished_true (b : Build atom) :
  NoDup (map env_id (environments (build_project b))) ->
  runs_in_project b ->
  Build_finished b = Ok (true, [])
  <-> no_pending_jobs b /\ Forall (env_satisfied b) (environments (build_project b)).
Proof.
  intros Hnd Hwf. destruct (Build_finished_eval b Hnd Hwf) as (jr & Hjr & E).
  cbv zeta in E. rewrite E.
  match type of E with _ = Ok (_, ?rs) => set (reasons := rs) in * end.
  assert (Hrs : reasons = [] <->
            no_pending_jobs b /\ Forall (env_satisfied b) (environments (build_project b))).
  { unfold reasons.
    assert (Hsplit : forall l1 l2 : list string, l1 ++ l2 = [] <-> l1 = [] /\ l2 = []).
    { intros l1 l2. split; [apply app_eq_nil|intros [-> ->]; reflexivity]. }
    rewrite Hsplit, Hjr, flat_map_map_nil.
    apply and_iff_compat_l. apply Forall_iff. intros e.
    unfold env_satisfied. apply check_env_nil, received_nonneg. }
  rewrite <- Hrs. split.
  - intros [= _ ->]. reflexivity.
  - intros ->. reflexivity.
Qed.

(** A finished build stays finished when it receives more completed runs:
    if [b'] has the project and the CI jobs of a finished build [b], its
    completed runs are in environments of the project, and every
    environment has received at least as many runs for [b'] as for [b],
    then [b'] is finished. *)
Theorem Build_finished_monotone (b b' : Build atom) :
  NoDup (map env_id (environments (build_project b))) ->
  build_project b' = build_project b ->
  test_jobs b' = test_jobs b ->
  runs_in_project b' ->
  (forall e, In e (environments (build_project b)) -> received b e <= received b' e) ->
  Build_finished b = Ok (true, []) ->
  Build_finished b' = Ok (true, []).
Proof.
  intros Hnd Hp Hj Hwf' Hmore Hfin.
  pose proof (Build_finished_Ok_in_project b _ _ Hfin) as Hwf.
  apply (Build_finished_true b Hnd Hwf) in Hfin as [Hjobs Henvs].
  apply Build_finished_true; [rewrite Hp; exact Hnd | exact Hwf' |].
  split.
  - unfold no_pending_jobs. rewrite Hj. exact Hjobs.
  - rewrite Hp. rewrite Forall_forall in Henvs |- *.
    intros e He. specialize (Henvs e He). apply list_elem_of_In in He.
    specialize (Hmore e He). unfold env_satisfied in *.
    destruct (expected_test_runs e) as [n|]; [|lia].
    destruct Henvs as [->|[H1 H2]]; [auto|right; lia].
Qed.

End FinishedMore.

Lemma Build_finished_monotone_sample :
  Build_finished Samples.build3 = Ok (true, [])
  /\ Build_finished MoreSamples.build3_later = Ok (true, []).
Proof.
  assert (Hfin : Build_finished Samples.build3 = Ok (true, [])) by reflexivity.
  split; [exact Hfin|].
  apply (Build_finished_monotone Samples.build3 MoreSamples.build3_later).
  - apply (bool_decide_unpack _). vm_compute. exact I.
  - reflexivity.
  - reflexivity.
  - intros r [<-|[<-|[<-|[<-|[]]]]] _; simpl; auto.
  - intros e [<-|[<-|[]]]; vm_compute; discriminate.
  - exact Hfin.
Defined.

(** ** [Build.metadata]: keys, and a single run *)

Lemma In_keys_items {K V : Type} (d : PyDict.t K V) (k : K) :
  In k (PyDict.keys d) <-> exists v, In (k, v) d.
Proof.
  unfold PyDict.keys. rewrite in_map_iff. split.
  - intros [[k' v] [<- Hin]]. eauto.
  - intros [v Hin]. exists (k, v). auto.
Qed.

Section MetadataMore.
Context {atom : Type} `{PyAtom atom}.

Lemma values_of_nil (key : string) (items : list (string * value atom)) :
  values_of key items = [] <-> ~ exists v, In (key, v) items.
Proof.
  unfold values_of. induction items as [|[k v] items IH]; simpl.
  - split; [intros _ [v []]|reflexivity].
  - destruct (decide (k = key)) as [->|Hne].
    + rewrite bool_decide_eq_true_2 by reflexivity. simpl.
      split; [discriminate|]. intros Hn. exfalso. apply Hn. eauto.
    + rewrite bool_decide_eq_false_2 by exact Hne. rewrite IH. split.
      * intros Hn [w [E|Hin]]; [congruence|]. apply Hn. eauto.
      * intros Hn [w Hin]. apply Hn. eauto.
Qed.

Lemma classic_items (key : string) (items : list (string * value atom)) :
  (exists v, In (key, v) items) \/ ~ exists v, In (key, v) items.
Proof.
  destruct (values_of key items) as [|w ws] eqn:Ev.
  - right. apply values_of_nil, Ev.
  - left. unfold values_of in Ev.
    assert (Hw : In w (map snd (List.filter (fun item => bool_decide (item.1 = key)) items)))
      by (rewrite Ev; simpl; auto).
    apply in_map_iff in Hw as [[k v] [_ [Hin Hk]%filter_In]].
    apply bool_decide_eq_true_1 in Hk. simpl in Hk. subst k. eauto.
Qed.

(** The keys of the merged metadata are distinct, and they are the keys of
    the metadata of the test runs. *)
Theorem Build_metadata_keys (b : Build atom) :
  NoDup (PyDict.keys (Build_metadata b))
  /\ forall key, In key (PyDict.keys (Build_metadata b))
       <-> exists r, In r (test_runs b) /\ In key (PyDict.keys (run_metadata r)).
Proof.
  split; [apply NoDup_keys_Build_metadata|]. intros key.
  assert (Hitems : (exists v, In (key, v) (metadata_items b))
            <-> exists r, In r (test_runs b) /\ In key (PyDict.keys (run_metadata r))).
  { unfold metadata_items. split.
    - intros [v [r [Hr Hin]]%in_flat_map]. exists r. split; [exact Hr|].
      apply In_keys_items. eauto.
    - intros [r [Hr [v Hin]%In_keys_items]]. exists v. apply in_flat_map. eauto. }
  rewrite <- Hitems.
  destruct (PyDict.get (Build_metadata b) key) as [v|] eqn:Eg.
  - split.
    + intros _. rewrite Build_metadata_merged in Eg.
      destruct (values_of key (metadata_items b)) as [|w ws] eqn:Ev; [discriminate|].
      destruct (classic_items key (metadata_items b)) as [Hex|Hn]; [exact Hex|].
      apply values_of_nil in Hn. congruence.
    + intros _. apply get_Some_In in Eg. apply In_keys_items. eauto.
  - split.
    + intros Hin. apply get_None_keys in Eg. contradiction.
    + intros Hex. exfalso. rewrite Build_metadata_merged in Eg.
      destruct (values_of key (metadata_items b)) as [|w ws] eqn:Ev.
      * apply values_of_nil in Ev. contradiction.
      * assert (Hd : distinct (w :: ws) <> []) by (rewrite distinct_nil_iff; discriminate).
        destruct (distinct (w :: ws)) as [|x [|y l]]; [congruence|discriminate..].
Qed.

(** A build with a single test run, whose metadata has one entry per key, has
    the metadata of that run. *)
Theorem Build_metadata_single_run (b : Build atom) (r : TestRun atom) :
  test_runs b = [r] ->
  NoDup (PyDict.keys (run_metadata r)) ->
  Build_metadata b = run_metadata r.
Proof.
  intros Hruns Hnd. unfold Build_metadata. rewrite Hruns. simpl.
  rewrite merge_run_items. unfold PyDict.items.
  rewrite merge_single; [|exact Hnd|reflexivity].
  simpl. rewrite map_map. simpl. clear Hnd Hruns.
  induction (run_metadata r) as [|[k v] m IH]; simpl; [reflexivity|].
  rewrite IH. reflexivity.
Qed.

(** ** [Build.important_metadata] and [Build.has_extra_metadata] *)

Variable splitlines : string -> list string.

Lemma get_pick (m : PyDict.t string (value atom)) (wanted : list string)
  (d : PyDict.t string (value atom)) (key : string) :
  PyDict.get
    (fold_left
       (fun d k => match PyDict.get m k with Some v => PyDict.set d k v | None => d end)
       wanted d) key
  = match (if bool_decide (key ∈ wanted) then PyDict.get m key else None) with
    | Some v => Some v
    | None => PyDict.get d key
    end.
Proof.
  revert d; induction wanted as [|k wanted IH]; intros d; simpl; [reflexivity|].
  rewrite IH. destruct (decide (k = key)) as [->|Hne].
  - rewrite (bool_decide_eq_true_2 (key ∈ key :: wanted)) by (left).
    destruct (bool_decide (key ∈ wanted)).
    + destruct (PyDict.get m key); [reflexivity|reflexivity].
    + destruct (PyDict.get m key); [apply get_set_eq|reflexivity].
  - assert (Eb : bool_decide (key ∈ k :: wanted) = bool_decide (key ∈ wanted)).
    { apply bool_decide_ext. rewrite elem_of_cons. intuition congruence. }
    rewrite Eb. destruct (if bool_decide (key ∈ wanted) then _ else _); [reflexivity|].
    destruct (PyDict.get m k); [apply get_set_ne, Hne|reflexivity].
Qed.

(** The important metadata is the part of the merged metadata under the
    wanted keys, and all of it when no key is wanted. *)
Theorem Build_important_metadata_get (setting : option string) (b : Build atom) (key : string) :
  PyDict.get (Build_important_metadata splitlines setting b) key
  = match splitlines (default "" setting) with
    | [] => PyDict.get (Build_metadata b) key
    | wanted =>
        if bool_decide (key ∈ wanted) then PyDict.get (Build_metadata b) key else None
    end.
Proof.
  unfold Build_important_metadata.
  replace (match setting with Some text => text | None => "" end) with (default "" setting)
    by (destruct setting; reflexivity).
  destruct (splitlines (default "" setting)) as [|w ws] eqn:Ew; [reflexivity|].
  replace (0 <? Z.of_nat (length (w :: ws))) with true
    by (symmetry; apply Z.ltb_lt; simpl length; lia).
  rewrite get_pick. simpl PyDict.get at 2.
  destruct (bool_decide (key ∈ w :: ws)); [|reflexivity].
  destruct (PyDict.get (Build_metadata b) key); reflexivity.
Qed.

Lemma forallb_false_ex {A : Type} (f : A -> bool) (l : list A) :
  forallb f l = false -> exists x, In x l /\ f x = false.
Proof.
  induction l as [|x l IH]; simpl; [discriminate|].
  destruct (f x) eqn:E; simpl.
  - intros Hf. destruct (IH Hf) as [y [Hy Ey]]. eauto.
  - intros _. eauto.
Qed.

Lemma same_key_set_true (a b : list string) :
  same_key_set a b = true <-> forall k, In k a <-> In k b.
Proof.
  unfold same_key_set. rewrite andb_true_iff, !forallb_forall. split.
  - intros [Hab Hba] k. split; intros Hin.
    + apply list_elem_of_In. apply (bool_decide_eq_true_1 _ (Hab k Hin)).
    + apply list_elem_of_In. apply (bool_decide_eq_true_1 _ (Hba k Hin)).
  - intros Hiff. split; intros k Hin; apply bool_decide_eq_true_2, list_elem_of_In, Hiff, Hin.
Qed.

(** [has_extra_metadata] holds exactly when some key is wanted and the
    merged metadata has a key that is not wanted. *)
Theorem Build_has_extra_metadata_iff (setting : option string) (b : Build atom) :
  Build_has_extra_metadata splitlines setting b = true
  <-> splitlines (default "" setting) <> []
      /\ exists key, In key (PyDict.keys (Build_metadata b))
                     /\ ~ In key (splitlines (default "" setting)).
Proof.
  unfold Build_has_extra_metadata.
  set (im := Build_important_metadata splitlines setting b).
  assert (Him : forall key, In key (PyDict.keys im) <->
            In key (PyDict.keys (Build_metadata b))
            /\ (splitlines (default "" setting) = [] \/ In key (splitlines (default "" setting)))).
  { intros key. unfold im.
    pose proof (Build_important_metadata_get setting b key) as Eg.
    pose proof (get_None_keys (Build_important_metadata splitlines setting b) key) as Hn1.
    pose proof (get_None_keys (Build_metadata b) key) as Hn2.
    destruct (splitlines (default "" setting)) as [|w ws].
    - rewrite Eg in Hn1.
      destruct (decide (key ∈ PyDict.keys (Build_metadata b))) as [Hin|Hout];
        rewrite list_elem_of_In in *.
      + split; [auto|]. intros _.
        destruct (decide (key ∈ PyDict.keys (Build_important_metadata splitlines setting b)))
          as [Hi|Ho]; rewrite list_elem_of_In in *; [exact Hi|].
        apply Hn1 in Ho. apply Hn2 in Ho. contradiction.
      + split; [|tauto]. intros Hi. exfalso.
        apply Hn2 in Hout. apply Hn1 in Hout. contradiction.
    - destruct (decide (key ∈ w :: ws)) as [Hw|Hw].
      + rewrite (bool_decide_eq_true_2 _ Hw) in Eg. rewrite Eg in Hn1.
        apply list_elem_of_In in Hw.
        destruct (decide (key ∈ PyDict.keys (Build_metadata b))) as [Hin|Hout];
          rewrite list_elem_of_In in *.
        * split; [auto|]. intros _.
          destruct (decide (key ∈ PyDict.keys (Build_important_metadata splitlines setting b)))
            as [Hi|Ho]; rewrite list_elem_of_In in *; [exact Hi|].
          apply Hn1 in Ho. apply Hn2 in Ho. contradiction.
        * split; [|tauto]. intros Hi. exfalso.
          apply Hn2 in Hout. apply Hn1 in Hout. contradiction.
      + rewrite (bool_decide_eq_false_2 _ Hw) in Eg.
        rewrite list_elem_of_In in Hw.
        split.
        * intros Hi. exfalso. apply (proj1 Hn1 Eg), Hi.
        * intros [_ [E|Hin]]; [discriminate|contradiction]. }
  destruct (same_key_set (PyDict.keys im) (PyDict.keys (Build_metadata b))) eqn:Es.
  - split; [discriminate|]. intros [Hne [key [Hin Hout]]]. exfalso.
    pose proof (proj1 (same_key_set_true _ _) Es) as Hsame.
    apply Hsame in Hin. apply Him in Hin as [_ [E|Hw]]; auto.
  - split; [intros _|reflexivity].
    assert (Hex : exists key, In key (PyDict.keys (Build_metadata b)) /\ ~ In key (PyDict.keys im)).
    { unfold same_key_set in Es. apply andb_false_iff in Es as [Es|Es].
      - exfalso. apply not_true_iff_false in Es. apply Es, forallb_forall.
        intros k Hk. apply bool_decide_eq_true_2, list_elem_of_In. apply Him in Hk. tauto.
      - apply forallb_false_ex in Es as [key [Hin Hf]]. exists key. split; [exact Hin|].
        apply bool_decide_eq_false_1 in Hf. rewrite list_elem_of_In in Hf. exact Hf. }
    destruct Hex as [key [Hin Hout]].
    assert (Hn : ~ (splitlines (default "" setting) = []
                    \/ In key (splitlines (default "" setting)))).
    { intros Hor. apply Hout, Him. auto. }
    split; [tauto|]. exists key. tauto.
Qed.

End MetadataMore.

Lemma Build_metadata_single_run_sample :
  Build_metadata MoreSamples.single = run_metadata Samples.run1.
Proof.
  apply (Build_metadata_single_run MoreSamples.single Samples.run1).
  - reflexivity.
  - apply (bool_decide_unpack _). vm_compute. exact I.
Defined.

(** ** [Test.history]: what the three fields say together *)

Section HistoryMore.
Context {atom : Type}.

(** [count] is zero exactly when [since] is null, and it never exceeds the
    number of previous tests; [since] and [last_different] are previous
    tests, the first with the result of this test, the second with another
    result; [last_different] is null exactly when every previous test has
    the result of this test, and then [count] is their number. *)
Theorem Test_history_fields (builds : list (Build atom)) (self : TestRow atom) :
  let h := Test_history builds self in
  let previous := previous_tests builds self in
  (count h = 0 <-> since h = None)
  /\ 0 <= count h <= Z.of_nat (length previous)
  /\ (forall t, since h = Some t ->
        In t previous /\ test_result (row_test t) = test_result (row_test self))
  /\ (forall d, last_different h = Some d ->
        In d previous /\ test_result (row_test d) <> test_result (row_test self))
  /\ (last_different h = None <->
      Forall (fun t => test_result (row_test t) = test_result (row_test self)) previous)
  /\ (last_different h = None -> count h = Z.of_nat (length previous)).
Proof.
  intros h previous. unfold h, Test_history. fold previous.
  destruct (history_loop_spec self previous None 0) as (same & rest & Ep & Hs & Hr & Eh).
  rewrite Eh. simpl. rewrite Ep, length_app.
  split; [|split; [lia|split; [|split; [|split]]]].
  - destruct same as [|t same]; simpl; [tauto|].
    rewrite last_cons. destruct (last same); split; (lia || discriminate).
  - intros t Et. destruct (last same) as [t'|] eqn:El; [|discriminate].
    injection Et as ->. apply last_Some_elem_of, list_elem_of_In in El.
    split; [apply in_or_app; auto|].
    rewrite Forall_forall in Hs. apply Hs, list_elem_of_In, El.
  - intros d Ed. destruct rest as [|d' rest]; [discriminate|].
    injection Ed as ->. split; [apply in_or_app; simpl; auto|exact Hr].
  - destruct rest as [|d rest]; simpl.
    + rewrite app_nil_r. tauto.
    + split; [discriminate|]. intros Hall. exfalso. apply Hr.
      rewrite Forall_forall in Hall. apply Hall, list_elem_of_In, in_or_app. simpl; auto.
  - destruct rest; simpl; [lia|discriminate].
Qed.

End HistoryMore.

(** ** [ProjectStatus.get_previous] and [Project.status] *)

Lemma sort_by_head {A : Type} (le : A -> A -> bool) (l : list A) (x : A) (rest : list A) :
  (forall x y, le x y = false -> le y x = true) ->
  (forall x y z, le x y = true -> le y z = true -> le x z = true) ->
  sort_by le l = x :: rest ->
  In x l /\ forall y, In y l -> le x y = true.
Proof.
  intros Htotal Htrans E.
  pose proof (sort_by_sorted le Htotal Htrans l) as Hs. rewrite E in Hs.
  split.
  - apply (In_sort_by le). rewrite E. simpl; auto.
  - intros y Hy. apply (In_sort_by le) in Hy. rewrite E in Hy.
    apply StronglySorted_inv in Hs as [_ Hx]. destruct Hy as [<-|Hy].
    + destruct (le x x) eqn:Exx; [reflexivity|]. apply Htotal in Exx as Exx'. congruence.
    + rewrite List.Forall_forall in Hx. auto.
Qed.

Section StatusQueryFacts.
Context {atom : Type}.

Lemma In_status_rows (db : DB atom) (select : ProjectStatus -> Build atom -> bool)
  (st : ProjectStatus) (b : Build atom) :
  In (st, b) (status_rows db select)
  <-> In b (db_builds db) /\ db_statuses db !! build_id b = Some st /\ select st b = true.
Proof.
  unfold status_rows. rewrite in_flat_map. split.
  - intros [b' [Hb Hin]]. destruct (db_statuses db !! build_id b') as [st'|] eqn:El; [|destruct Hin].
    destruct (select st' b') eqn:Es; [|destruct Hin].
    destruct Hin as [[= <- <-]|[]]. auto.
  - intros (Hb & El & Es). exists b. split; [exact Hb|]. rewrite El, Es. simpl; auto.
Qed.

(** [get_previous] returns the status of a finished, strictly earlier build
    of the same project whose [datetime] is the latest among those builds;
    it returns nothing exactly when there is no such build. *)
Theorem get_previous_latest (db : DB atom) (self_build : Build atom) :
  match get_previous db self_build with
  | Some st =>
      exists b,
        In b (db_builds db) /\ db_statuses db !! build_id b = Some st
        /\ previous_to self_build st b
        /\ forall b' st',
             In b' (db_builds db) -> db_statuses db !! build_id b' = Some st' ->
             previous_to self_build st' b' ->
             build_datetime b' <= build_datetime b
  | None =>
      forall b' st',
        In b' (db_builds db) -> db_statuses db !! build_id b' = Some st' ->
        ~ previous_to self_build st' b'
  end.
Proof.
  unfold get_previous.
  set (select := fun (st : ProjectStatus) (b : Build atom) =>
                   finished st && (build_datetime b <? build_datetime self_build)
                   && (project_id (build_project b) =? project_id (build_project self_build))).
  assert (Hsel : forall st b, select st b = true <-> previous_to self_build st b).
  { intros st b. unfold select, previous_to.
    rewrite !andb_true_iff, Z.ltb_lt, Z.eqb_eq. tauto. }
  destruct (sort_by _ (status_rows db select)) as [|[st b] rest] eqn:E.
  - intros b' st' Hb' El Hq.
    assert (Hin : In (st', b') (status_rows db select)) by (apply In_status_rows, conj, conj, Hsel; auto).
    apply (In_sort_by (fun r1 r2 : ProjectStatus * Build atom => build_datetime r2.2 <=? build_datetime r1.2)) in Hin.
    rewrite E in Hin. destruct Hin.
  - apply sort_by_head in E as [Hin Hmax].
    + apply In_status_rows in Hin as (Hb & El & Hq). exists b.
      split; [exact Hb|]. split; [exact El|]. split; [apply Hsel, Hq|].
      intros b' st' Hb' El' Hq'.
      assert (Hin' : In (st', b') (status_rows db select)) by (apply In_status_rows, conj, conj, Hsel; auto).
      apply Hmax in Hin'. simpl in Hin'. apply Z.leb_le, Hin'.
    + intros x y Hxy. apply Z.leb_gt in Hxy. apply Z.leb_le. lia.
    + intros x y z Hxy Hyz. apply Z.leb_le in Hxy, Hyz. apply Z.leb_le. lia.
Qed.

(** [Project.status] returns the status created last among the statuses of
    the builds of the project, and fails exactly when the project has no
    status. *)
Theorem Project_status_latest (db : DB atom) (self : Project) :
  match Project_status db self with
  | Some st =>
      exists b,
        In b (db_builds db) /\ db_statuses db !! build_id b = Some st
        /\ project_id (build_project b) = project_id self
        /\ forall b' st',
             In b' (db_builds db) -> db_statuses db !! build_id b' = Some st' ->
             project_id (build_project b') = project_id self ->
             created_at st' <= created_at st
  | None =>
      forall b' st',
        In b' (db_builds db) -> db_statuses db !! build_id b' = Some st' ->
        project_id (build_project b') <> project_id self
  end.
Proof.
  unfold Project_status.
  set (select := fun (st : ProjectStatus) (b : Build atom) =>
                   project_id (build_project b) =? project_id self).
  destruct (sort_by _ (status_rows db select)) as [|[st b] rest] eqn:E.
  - intros b' st' Hb' El Hq.
    assert (Hin : In (st', b') (status_rows db select))
      by (apply In_status_rows; unfold select; rewrite Z.eqb_eq; auto).
    apply (In_sort_by (fun r1 r2 : ProjectStatus * Build atom => created_at r2.1 <=? created_at r1.1)) in Hin.
    rewrite E in Hin. destruct Hin.
  - apply sort_by_head in E as [Hin Hmax].
    + apply In_status_rows in Hin as (Hb & El & Hq). exists b.
      split; [exact Hb|]. split; [exact El|]. split; [apply Z.eqb_eq, Hq|].
      intros b' st' Hb' El' Hq'.
      assert (Hin' : In (st', b') (status_rows db select))
        by (apply In_status_rows; unfold select; rewrite Z.eqb_eq; auto).
      apply Hmax in Hin'. simpl in Hin'. apply Z.leb_le, Hin'.
    + intros x y Hxy. apply Z.leb_gt in Hxy. apply Z.leb_le. lia.
    + intros x y z Hxy Hyz. apply Z.leb_le in Hxy, Hyz. apply Z.leb_le. lia.
Qed.

End StatusQueryFacts.

(** ** [ProjectStatus.create_or_update]: errors, totals, repeated calls *)

Lemma length_filter_split {A : Type} (f : A -> bool) (l : list A) :
  length l = (length (List.filter f l) + length (List.filter (fun x => negb (f x)) l))%nat.
Proof.
  induction l as [|x l IH]; simpl; [reflexivity|].
  destruct (f x); simpl; lia.
Qed.

Section SnapshotMore.
Context {atom cmap : Type}.
Variable geomean : list Q -> Q.
Variable nulls_smallest : bool.
Variable comparison_regressions comparison_fixes : Build atom -> Build atom -> cmap.
Variable cmap_truthy : cmap -> bool.
Variable yaml_dump : cmap -> string.

Local Abbreviation create_or_update' :=
  (create_or_update geomean nulls_smallest comparison_regressions comparison_fixes
     cmap_truthy yaml_dump).

(** [create_or_update] raises exactly when [Build.finished] raises, and it
    raises the same exception: never [InvalidTestStatus]. *)
Theorem create_or_update_raises (db : DB atom) (now stamp : Z) (build : Build atom) (e : exn) :
  create_or_update' db now stamp build = Raise e <-> Build_finished build = Raise e.
Proof.
  unfold create_or_update.
  destruct (TestSummary_init_ok build) as [summary ->]. simpl.
  destruct (Build_finished build) as [fin|e']; simpl.
  - split; [|discriminate].
    destruct (db_statuses db !! build_id build); [|discriminate].
    destruct (_ <=? _); discriminate.
  - split; intros [= ->]; reflexivity.
Qed.

(** After a call that returns, the status returned is the stored status of
    the build; its [tests_total] is the fresh total when the build had no
    status, and otherwise the larger of the stored and the fresh total;
    the builds and the statuses of the other builds are as before. *)
Theorem create_or_update_total (db db' : DB atom) (now stamp : Z) (build : Build atom)
  (summary : TestSummary atom) (st' : ProjectStatus) :
  TestSummary_init build = Ok summary ->
  create_or_update' db now stamp build = Ok (db', st') ->
  db_statuses db' !! build_id build = Some st'
  /\ tests_total st'
     = match db_statuses db !! build_id build with
       | Some st => Z.max (tests_total st) (tests_total summary)
       | None => tests_total summary
       end
  /\ db_builds db' = db_builds db
  /\ forall other, other <> build_id build ->
       db_statuses db' !! other = db_statuses db !! other.
Proof.
  intros Es. unfold create_or_update. rewrite Es. simpl.
  destruct (Build_finished build) as [fin|e]; simpl; [|discriminate].
  destruct (db_statuses db !! build_id build) as [st|] eqn:El.
  - destruct (tests_total st <=? tests_total summary) eqn:Eg.
    + intros [= <- <-]. simpl. apply Z.leb_le in Eg.
      rewrite lookup_insert_eq. split; [reflexivity|].
      split; [rewrite Z.max_r by exact Eg; reflexivity|]. split; [reflexivity|].
      intros other Hne. apply lookup_insert_ne. congruence.
    + intros [= <- <-]. apply Z.leb_gt in Eg.
      split; [exact El|]. split; [lia|]. auto.
  - intros [= <- <-]. simpl. rewrite lookup_insert_eq. split; [reflexivity|].
    split; [reflexivity|]. split; [reflexivity|].
    intros other Hne. apply lookup_insert_ne. congruence.
Qed.

(** The run counts of the statuses add up after a call if they did
    before it. *)
Theorem create_or_update_runs_add_up (db db' : DB atom) (now stamp : Z) (build : Build atom)
  (st' : ProjectStatus) :
  (forall i st, db_statuses db !! i = Some st -> runs_add_up st) ->
  create_or_update' db now stamp build = Ok (db', st') ->
  runs_add_up st'
  /\ forall i st, db_statuses db' !! i = Some st -> runs_add_up st.
Proof.
  intros Hinv. unfold create_or_update.
  destruct (TestSummary_init_ok build) as [summary ->]. simpl.
  destruct (Build_finished build) as [fin|e]; simpl; [|discriminate].
  assert (Hfresh : forall (a : Z) (l1 : option Z) f (n t a' : bool) q hm p fl x k r1 r2,
            runs_add_up
              (mkProjectStatus (build_id build) a l1 f n t a' q hm p fl x k
                 (Z.of_nat (length (test_runs build)))
                 (Z.of_nat (length (List.filter completed (test_runs build))))
                 (Z.of_nat (length (List.filter (fun r => negb (completed r)) (test_runs build))))
                 r1 r2)).
  { intros. unfold runs_add_up; simpl.
    rewrite (length_filter_split completed (test_runs build)) at 1. lia. }
  assert (Hins : forall st0,
            runs_add_up st0 ->
            forall i st, <[build_id build := st0]> (db_statuses db) !! i = Some st -> runs_add_up st).
  { intros st0 H0 i st. destruct (decide (i = build_id build)) as [->|Hne].
    - rewrite lookup_insert_eq. intros [= <-]. exact H0.
    - rewrite lookup_insert_ne by congruence. apply Hinv. }
  destruct (db_statuses db !! build_id build) as [st|] eqn:El.
  - destruct (tests_total st <=? tests_total summary).
    + intros [= <- <-]. simpl. split; [apply Hfresh|]. apply Hins, Hfresh.
    + intros [= <- <-]. split; [eapply Hinv, El|exact Hinv].
  - intros [= <- <-]. simpl. split; [apply Hfresh|]. apply Hins, Hfresh.
Qed.

(** When no build qualifies as previous, a status that is created or
    overwritten holds neither regressions nor fixes. *)
Theorem create_or_update_no_baseline (db db' : DB atom) (now stamp : Z) (build : Build atom)
  (summary : TestSummary atom) (st' : ProjectStatus) :
  (forall b st, In b (db_builds db) -> db_statuses db !! build_id b = Some st ->
     ~ previous_to build st b) ->
  TestSummary_init build = Ok summary ->
  (forall st, db_statuses db !! build_id build = Some st ->
     tests_total st <= tests_total summary) ->
  create_or_update' db now stamp build = Ok (db', st') ->
  regressions st' = None /\ fixes st' = None.
Proof.
  intros Hnone Es Hguard.
  assert (Hp : previous_build nulls_smallest db build = None).
  { destruct (previous_build_None nulls_smallest comparison_regressions comparison_fixes
                cmap_truthy yaml_dump db build) as [_ Hback].
    apply Hback. intros b Hb (Hf & Hd & Hpj).
    unfold status_finished in Hf.
    destruct (db_statuses db !! build_id b) as [st|] eqn:El; [|discriminate].
    apply (Hnone b st Hb El). unfold previous_to. auto. }
  unfold create_or_update. rewrite Es, Hp. simpl.
  destruct (Build_finished build) as [fin|e]; simpl; [|discriminate].
  destruct (db_statuses db !! build_id build) as [st|] eqn:El.
  - specialize (Hguard st eq_refl). apply Z.leb_le in Hguard. rewrite Hguard.
    intros [= <- <-]. simpl. auto.
  - intros [= <- <-]. simpl. auto.
Qed.

Lemma previous_build_insert (db : DB atom) (build : Build atom) (st : ProjectStatus) :
  (forall b, In b (db_builds db) -> build_id b = build_id build ->
     build_datetime build <= build_datetime b) ->
  previous_build nulls_smallest
    (mkDB (db_builds db) (<[build_id build := st]> (db_statuses db))) build
  = previous_build nulls_smallest db build.
Proof.
  intros Hids. unfold previous_build. cbn [db_builds db_statuses].
  assert (Hfilter :
    List.filter
      (fun b => status_finished (mkDB (db_builds db) (<[build_id build := st]> (db_statuses db))) b
                && (build_datetime b <? build_datetime build)
                && (project_id (build_project b) =? project_id (build_project build)))
      (db_builds db)
    = List.filter
        (fun b => status_finished db b
                  && (build_datetime b <? build_datetime build)
                  && (project_id (build_project b) =? project_id (build_project build)))
        (db_builds db)).
  { apply filter_ext_in. intros b Hb. unfold status_finished. cbn [db_statuses].
    destruct (decide (build_id b = build_id build)) as [E|Hne].
    - specialize (Hids b Hb E).
      assert (El : (build_datetime b <? build_datetime build) = false) by (apply Z.ltb_ge; lia).
      rewrite El, !andb_false_r. reflexivity.
    - rewrite lookup_insert_ne by congruence. reflexivity. }
  rewrite Hfilter. reflexivity.
Qed.

(** Repeating a call that returned, on the database it left and with the
    same clock reading, returns the same status and leaves the database as
    it is (no build of the table with the id of the build being earlier
    than it). *)
Theorem create_or_update_idempotent (db db1 : DB atom) (now stamp stamp' : Z)
  (build : Build atom) (st1 : ProjectStatus) :
  (forall b, In b (db_builds db) -> build_id b = build_id build ->
     build_datetime build <= build_datetime b) ->
  create_or_update' db now stamp build = Ok (db1, st1) ->
  create_or_update' db1 now stamp' build = Ok (db1, st1).
Proof.
  intros Hids. unfold create_or_update.
  destruct (TestSummary_init_ok build) as [summary ->]. simpl.
  destruct (Build_finished build) as [fin|e]; simpl; [|discriminate].
  destruct (db_statuses db !! build_id build) as [st|] eqn:El.
  - destruct (tests_total st <=? tests_total summary) eqn:Eg.
    + intros [= <- <-]. cbn [db_statuses db_builds].
      rewrite lookup_insert_eq, previous_build_insert by exact Hids.
      replace (tests_total _ <=? tests_total summary) with true
        by (symmetry; apply Z.leb_le; unfold tests_total; simpl; lia).
      cbn [created_at notified notified_on_timeout approved].
      rewrite insert_insert_eq. reflexivity.
    + intros [= <- <-]. rewrite El, Eg. reflexivity.
  - intros [= <- <-]. cbn [db_statuses db_builds].
    rewrite lookup_insert_eq, previous_build_insert by exact Hids.
    replace (tests_total _ <=? tests_total summary) with true
      by (symmetry; apply Z.leb_le; unfold tests_total; simpl; lia).
    cbn [created_at notified notified_on_timeout approved].
    rewrite insert_insert_eq. reflexivity.
Qed.

End SnapshotMore.

(** ** [NotificationDelivery.exists] *)

(** A notification is reported as new at most once: the first call for given
    contents returns false exactly when the table has no row for them, the
    call leaves a table that has the row, keeps the rows it had and keeps
    them distinct, and a second call with the same contents returns true
    and changes nothing. *)
Theorem NotificationDelivery_exists_once (sha1_hexdigest : string -> string)
  (table : list NotificationDelivery) (status : Z) (subject txt html : string) :
  let row :=
    mkNotificationDelivery status (Some (sha1_hexdigest subject))
      (Some (sha1_hexdigest txt)) (Some (sha1_hexdigest html)) in
  let first := NotificationDelivery_exists sha1_hexdigest table status subject txt html in
  (first.2 = false <-> ~ In row table)
  /\ In row first.1
  /\ (forall r, In r table -> In r first.1)
  /\ (NoDup table -> NoDup first.1)
  /\ NotificationDelivery_exists sha1_hexdigest first.1 status subject txt html
     = (first.1, true).
Proof.
  intros row first. unfold first, NotificationDelivery_exists. fold row.
  destruct (decide (row ∈ table)) as [Hin|Hout].
  - rewrite (bool_decide_eq_true_2 _ Hin). simpl.
    rewrite (bool_decide_eq_true_2 _ Hin). simpl.
    apply list_elem_of_In in Hin. repeat split; auto; try discriminate. tauto.
  - rewrite (bool_decide_eq_false_2 _ Hout). simpl.
    assert (Hrow : row ∈ table ++ [row]) by (apply elem_of_app; right; left).
    rewrite (bool_decide_eq_true_2 _ Hrow). simpl.
    rewrite list_elem_of_In in Hout. repeat split; auto.
    + apply in_or_app. simpl; auto.
    + intros r Hr. apply in_or_app; auto.
    + intros Hnd. apply NoDup_app. split; [exact Hnd|]. split; [|apply NoDup_singleton].
      intros x Hx [->|[]%not_elem_of_nil]%elem_of_cons. apply Hout, list_elem_of_In, Hx.
Qed.

(** ** The further properties on the sample data *)

Lemma create_or_update_total_sample :
  exists db' st',
    MoreSamples.create_or_update Samples.database 31 31 Samples.build3 = Ok (db', st')
    /\ db_statuses db' !! build_id Samples.build3 = Some st'
    /\ tests_total st' = 5.
Proof.
  destruct (MoreSamples.create_or_update Samples.database 31 31 Samples.build3)
    as [[db' st']|e] eqn:E.
  - exists db', st'. split; [reflexivity|].
    destruct (create_or_update_total MoreSamples.geomean true MoreSamples.no_changes
                MoreSamples.no_changes MoreSamples.truthy MoreSamples.dump
                Samples.database db' 31 31 Samples.build3
                (mkTestSummary 1 0 0 0 PyDict.empty) st' eq_refl E) as (Hl & Ht & _).
    split; [exact Hl|]. rewrite Ht. vm_compute. reflexivity.
  - vm_compute in E. discriminate.
Defined.

Lemma create_or_update_runs_add_up_sample :
  exists db' st',
    MoreSamples.create_or_update Samples.database 31 31 Samples.older = Ok (db', st')
    /\ runs_add_up st'
    /\ forall i st, db_statuses db' !! i = Some st -> runs_add_up st.
Proof.
  destruct (MoreSamples.create_or_update Samples.database 31 31 Samples.older)
    as [[db' st']|e] eqn:E.
  - exists db', st'. split; [reflexivity|].
    apply (create_or_update_runs_add_up MoreSamples.geomean true MoreSamples.no_changes
             MoreSamples.no_changes MoreSamples.truthy MoreSamples.dump
             Samples.database db' 31 31 Samples.older st'); [|exact E].
    intros i st Hl. unfold Samples.database in Hl. cbn [db_statuses] in Hl.
    repeat (apply lookup_insert_Some in Hl as [[_ <-]|[_ Hl]]; [reflexivity|]).
    rewrite lookup_empty in Hl. discriminate.
  - vm_compute in E. discriminate.
Defined.

Lemma create_or_update_no_baseline_sample :
  exists db' st',
    MoreSamples.create_or_update Samples.database 31 31 Samples.older = Ok (db', st')
    /\ regressions st' = None /\ fixes st' = None.
Proof.
  destruct (MoreSamples.create_or_update Samples.database 31 31 Samples.older)
    as [[db' st']|e] eqn:E.
  - exists db', st'. split; [reflexivity|].
    apply (create_or_update_no_baseline MoreSamples.geomean true MoreSamples.no_changes
             MoreSamples.no_changes MoreSamples.truthy MoreSamples.dump
             Samples.database db' 31 31 Samples.older
             (mkTestSummary 0 0 0 0 PyDict.empty) st'); [| reflexivity | | exact E].
    + intros b st [<-|[<-|[<-|[<-|[<-|[]]]]]] _ (_ & Hd & _); simpl in Hd; lia.
    + intros st Hl. vm_compute in Hl. injection Hl as <-. vm_compute. discriminate.
  - vm_compute in E. discriminate.
Defined.

Lemma create_or_update_idempotent_sample :
  exists db1 st1,
    MoreSamples.create_or_update Samples.database 31 31 Samples.older = Ok (db1, st1)
    /\ MoreSamples.create_or_update db1 31 32 Samples.older = Ok (db1, st1).
Proof.
  destruct (MoreSamples.create_or_update Samples.database 31 31 Samples.older)
    as [[db1 st1]|e] eqn:E.
  - exists db1, st1. split; [reflexivity|].
    apply (create_or_update_idempotent MoreSamples.geomean true MoreSamples.no_changes
             MoreSamples.no_changes MoreSamples.truthy MoreSamples.dump
             Samples.database db1 31 31 32 Samples.older st1); [|exact E].
    intros b [<-|[<-|[<-|[<-|[<-|[]]]]]]; simpl; intros; lia.
  - vm_compute in E. discriminate.
Defined.

(** ** Access control *)

(** The queryset of the manager is the object-level check applied to the
    table: when every project row carries a group of the table and the
    group ids are distinct, [ProjectManager.accessible_to] yields exactly
    the projects for which [Project.accessible_to] holds, in the default
    ordering of [Project] (by the slug of the group, then by the slug of
    the project), whatever the collation of the database. *)
Theorem ProjectManager_accessible_to_filter (slug_leb : string -> string -> bool)
  (groups : list Group) (projects : list ProjectAccess) (user : User) :
  NoDup (map group_id groups) ->
  (forall p, In p projects -> In (access_group p) groups) ->
  ProjectManager_accessible_to slug_leb groups projects user
  = sort_by (Project_ordering slug_leb)
      (List.filter (fun p => Project_accessible_to p user) projects)
  /\ forall p, In p (ProjectManager_accessible_to slug_leb groups projects user)
       <-> In p projects /\ Project_accessible_to p user = true.
Proof.
  intros Hnd Hfk.
  assert (Eq : ProjectManager_accessible_to slug_leb groups projects user
               = sort_by (Project_ordering slug_leb)
                   (List.filter (fun p => Project_accessible_to p user) projects));
    [|split; [exact Eq|intros p; rewrite Eq, In_sort_by; apply filter_In]].
  unfold ProjectManager_accessible_to. f_equal.
  destruct (is_superuser user || is_staff user) eqn:Eadmin.
  - symmetry. rewrite <- (filter_ext_in (fun _ => true)).
    + induction projects as [|p ps IH]; simpl; [reflexivity|]. f_equal.
      apply IH. intros; apply Hfk; simpl; auto.
    + intros p _. unfold Project_accessible_to, Project_writable_by.
      rewrite Eadmin. simpl. symmetry. apply orb_true_r.
  - apply filter_ext_in. intros p Hp.
    unfold Project_accessible_to, Project_writable_by. rewrite Eadmin. simpl.
    rewrite (orb_comm (is_public p)). f_equal.
    specialize (Hfk p Hp).
    destruct (shared_user_groups (access_group p) user) as [|ug ugs] eqn:Es.
    + apply bool_decide_eq_false_2. intros Hin%list_elem_of_In.
      apply in_map_iff in Hin as [g [Eid [g' [Hg' Hin]]%in_flat_map]].
      apply in_map_iff in Hin as [ug [<- Hug]].
      assert (g' = access_group p) as ->.
      { clear -Hnd Hfk Hg' Eid. induction groups as [|g groups IH]; [destruct Hfk|].
        simpl in Hnd. apply NoDup_cons in Hnd as [Hg Hnd].
        destruct Hfk as [->|Hfk], Hg' as [->|Hg']; auto.
        - exfalso. apply Hg, list_elem_of_In. rewrite <- Eid. apply in_map, Hg'.
        - exfalso. apply Hg, list_elem_of_In. rewrite Eid. apply in_map, Hfk. }
      rewrite Es in Hug. destruct Hug.
    + apply bool_decide_eq_true_2, list_elem_of_In.
      apply in_map. apply in_flat_map. exists (access_group p). split; [exact Hfk|].
      rewrite Es. simpl; auto.
Qed.

Lemma ProjectManager_accessible_to_sample :
  ProjectManager_accessible_to String.leb [MoreSamples.lab; MoreSamples.guests]
    [MoreSamples.private_project; MoreSamples.public_project] MoreSamples.member
  = sort_by (Project_ordering String.leb)
      (List.filter (fun p => Project_accessible_to p MoreSamples.member)
         [MoreSamples.private_project; MoreSamples.public_project])
  /\ forall p,
       In p (ProjectManager_accessible_to String.leb [MoreSamples.lab; MoreSamples.guests]
               [MoreSamples.private_project; MoreSamples.public_project] MoreSamples.member)
       <-> In p [MoreSamples.private_project; MoreSamples.public_project]
           /\ Project_accessible_to p MoreSamples.member = true.
Proof.
  apply ProjectManager_accessible_to_filter.
  - apply (bool_decide_unpack _). vm_compute. exact I.
  - intros p [<-|[<-|[]]]; simpl; auto.
Defined.

(** The public project of the group guests comes before the private project
    of the group lab, which is first in the table. *)
Lemma ProjectManager_accessible_to_order :
  ProjectManager_accessible_to String.leb [MoreSamples.lab; MoreSamples.guests]
    [MoreSamples.private_project; MoreSamples.public_project] MoreSamples.member
  = [MoreSamples.public_project; MoreSamples.private_project].
Proof. vm_compute. reflexivity. Qed.

(** ** [Test.history]: order in time *)

Lemma StronglySorted_app_inv {A : Type} (R : A -> A -> Prop) (l1 l2 : list A) (x y : A) :
  StronglySorted R (l1 ++ l2) -> In x l1 -> In y l2 -> R x y.
Proof.
  induction l1 as [|z l1 IH]; simpl; [tauto|].
  intros Hs [->|Hx] Hy; apply StronglySorted_inv in Hs as [Hs Hz].
  - rewrite List.Forall_forall in Hz. apply Hz, in_or_app. auto.
  - apply IH; assumption.
Qed.

(** The build of [last_different] is never later than the build of [since]:
    the streak of equal results is the most recent part of the history. *)
Theorem Test_history_order {atom : Type} (builds : list (Build atom)) (self : TestRow atom)
  (t d : TestRow atom) :
  since (Test_history builds self) = Some t ->
  last_different (Test_history builds self) = Some d ->
  build_datetime (row_build d) <= build_datetime (row_build t)
  /\ build_datetime (row_build t) < build_datetime (row_build self).
Proof.
  unfold Test_history.
  destruct (history_loop_spec self (previous_tests builds self) None 0)
    as (same & rest & Ep & Hs & Hr & Eh).
  rewrite Eh. simpl. intros Et Ed.
  destruct (last same) as [t'|] eqn:El; [|discriminate]. injection Et as ->.
  destruct rest as [|d' rest]; [discriminate|]. injection Ed as ->.
  apply last_Some_elem_of, list_elem_of_In in El.
  assert (Hsorted : StronglySorted
            (fun t1 t2 : TestRow atom =>
               (build_datetime (row_build t2) <=? build_datetime (row_build t1)) = true)
            (same ++ d :: rest)).
  { rewrite <- Ep. apply sort_by_sorted.
    - intros x y Hxy. apply Z.leb_gt in Hxy. apply Z.leb_le. lia.
    - intros x y z Hxy Hyz. apply Z.leb_le in Hxy, Hyz. apply Z.leb_le. lia. }
  split.
  - apply Z.leb_le.
    apply (StronglySorted_app_inv _ same (d :: rest) t d Hsorted El). simpl; auto.
  - assert (Hin : In t (previous_tests builds self)) by (rewrite Ep; apply in_or_app; auto).
    unfold previous_tests in Hin.
    apply In_sort_by in Hin. apply filter_In in Hin as [Hin _].
    apply filter_In in Hin as [_ Hf]. rewrite !andb_true_iff in Hf.
    destruct Hf as [[[_ _] Hlt] _]. apply Z.ltb_lt, Hlt.
Qed.

(** ** [Build.test_suites_by_environment] *)

Lemma sort_by_locally_sorted {A : Type} (le : A -> A -> bool) (l : list A) :
  (forall x y, le x y = false -> le y x = true) ->
  Sorted (fun a b => le a b = true) (sort_by le l).
Proof.
  intros Htotal. induction l as [|x l IH]; simpl; [constructor|].
  induction IH as [|y l' Hs IH' Hhd]; simpl.
  - repeat constructor.
  - destruct (le x y) eqn:E.
    + constructor; [constructor; assumption|]. constructor. exact E.
    + constructor; [exact IH'|].
      destruct l' as [|z l']; simpl.
      * constructor. apply Htotal, E.
      * destruct (le x z) eqn:Ez.
        -- constructor. apply Htotal, E.
        -- constructor. inversion Hhd; assumption.
Qed.

Lemma fold_option_app {S A : Type} (body : S -> A -> option S) (l1 l2 : list A) (s : S) :
  fold_option body (l1 ++ l2) s
  = match fold_option body l1 s with
    | Some s' => fold_option body l2 s'
    | None => None
    end.
Proof.
  revert s; induction l1 as [|x l1 IH]; intros s; simpl; [reflexivity|].
  destruct (body s x); [apply IH|reflexivity].
Qed.

Section SuitesFacts.
Context {atom : Type}.
Implicit Types (R : PyDict.t Z (Environment * PyDict.t Z (Suite * PyDict.t string Z))).

(** The two loops are one loop over the tests of the build. *)
Lemma count_suite_rows (b : Build atom) (runs : list (TestRun atom)) R :
  fold_option (fun R tr => fold_option (count_suite_test tr) (run_tests tr) R) runs R
  = fold_option (fun R row => count_suite_test (row_run row) R (row_test row))
      (flat_map (fun r => map (mkTestRow b r) (run_tests r)) runs) R.
Proof.
  revert R; induction runs as [|r runs IH]; intros R; simpl; [reflexivity|].
  rewrite fold_option_app.
  assert (E : fold_option (count_suite_test r) (run_tests r) R
              = fold_option (fun R row => count_suite_test (row_run row) R (row_test row))
                  (map (mkTestRow b r) (run_tests r)) R).
  { generalize R. induction (run_tests r) as [|t ts IHt]; intros R0; simpl; [reflexivity|].
    destruct (count_suite_test r R0 t); [apply IHt|reflexivity]. }
  rewrite <- E. destruct (fold_option (count_suite_test r) (run_tests r) R); [apply IH|reflexivity].
Qed.

Lemma cell_count_snoc (done : list (TestRow atom)) (row : TestRow atom) (eid sid : Z)
  (status : string) :
  cell_count (done ++ [row]) eid sid status
  = cell_count done eid sid status
    + (if in_cell eid sid row && bool_decide (Test_status (row_test row) = status)
       then 1 else 0).
Proof.
  unfold cell_count. rewrite List.filter_app, length_app. simpl.
  destruct (in_cell eid sid row && _); simpl; lia.
Qed.

Lemma cell_count_zero (done : list (TestRow atom)) (eid sid : Z) (status : string) :
  (forall row, In row done -> in_cell eid sid row = false) ->
  cell_count done eid sid status = 0.
Proof.
  intros Hnone. unfold cell_count.
  induction done as [|row done IH]; simpl; [reflexivity|].
  rewrite (Hnone row) by (simpl; auto). simpl. apply IH. intros; apply Hnone; simpl; auto.
Qed.

Lemma get_new_counters (status : string) :
  In status ["fail"; "pass"; "skip"; "xfail"] -> PyDict.get new_counters status = Some 0.
Proof.
  intros [<-|[<-|[<-|[<-|[]]]]]; reflexivity.
Qed.

Lemma Test_status_four (t : Test) : In (Test_status t) ["fail"; "pass"; "skip"; "xfail"].
Proof.
  destruct (Test_status_cases t) as [E|[E|[E|E]]]; rewrite E; simpl; auto.
Qed.

Lemma set_keeps_environment R (k : Z) (entry : Environment * PyDict.t Z (Suite * PyDict.t string Z))
  (suites : PyDict.t Z (Suite * PyDict.t string Z)) :
  PyDict.get R k = Some entry ->
  map (fun item => (item.1, item.2.1)) (PyDict.set R k (entry.1, suites))
  = map (fun item => (item.1, item.2.1)) R.
Proof.
  induction R as [|[k' e'] R IH]; simpl; [discriminate|].
  destruct (decide (k = k')) as [->|Hne]; simpl.
  - intros [= ->]. reflexivity.
  - intros Hg. rewrite IH by exact Hg. reflexivity.
Qed.

Lemma in_cell_snoc_other (done : list (TestRow atom)) (row : TestRow atom) (eid sid : Z) :
  in_cell eid sid row = false ->
  (forall status, cell_count (done ++ [row]) eid sid status = cell_count done eid sid status)
  /\ ((forall r, In r done -> in_cell eid sid r = false) ->
      forall r, In r (done ++ [row]) -> in_cell eid sid r = false)
  /\ ((exists r, In r done /\ in_cell eid sid r = true) ->
      exists r, In r (done ++ [row]) /\ in_cell eid sid r = true).
Proof.
  intros Hout. split; [|split].
  - intros status. rewrite cell_count_snoc, Hout. simpl. lia.
  - intros Hnone r [Hr|[<-|[]]]%in_app_or; auto.
  - intros [r [Hr Hc]]. exists r. split; [apply in_or_app; auto|exact Hc].
Qed.

(** One test more is counted. *)
Lemma count_suite_step R (done : list (TestRow atom)) (row : TestRow atom) :
  counted R done ->
  In (env_id (run_environment (row_run row))) (PyDict.keys R) ->
  exists R',
    count_suite_test (row_run row) R (row_test row) = Some R'
    /\ counted R' (done ++ [row])
    /\ map (fun item => (item.1, item.2.1)) R' = map (fun item => (item.1, item.2.1)) R.
Proof.
  intros Hc Hkey. unfold count_suite_test.
  set (e0 := env_id (run_environment (row_run row))) in *.
  set (s0 := suite_id (test_suite (row_test row))).
  set (x0 := Test_status (row_test row)).
  destruct (PyDict.get R e0) as [entry|] eqn:Ee;
    [|apply get_None_keys in Ee; contradiction].
  destruct (Hc e0 entry Ee) as [Hnd Hcells].
  assert (Hsuites : exists suites cell0,
    (if bool_decide (s0 ∈ PyDict.keys entry.2) then entry.2
     else PyDict.setdefault entry.2 s0 (test_suite (row_test row), new_counters)) = suites
    /\ PyDict.get suites s0 = Some cell0
    /\ NoDup (PyDict.keys suites)
    /\ suite_id cell0.1 = s0
    /\ (forall status, In status ["fail"; "pass"; "skip"; "xfail"] ->
          PyDict.get cell0.2 status = Some (cell_count done e0 s0 status))
    /\ forall sid, sid <> s0 -> PyDict.get suites sid = PyDict.get entry.2 sid).
  { pose proof (Hcells s0) as Hs0.
    destruct (PyDict.get entry.2 s0) as [cell|] eqn:Es.
    - exists entry.2, cell. destruct Hs0 as (Hid & _ & Hcounts).
      rewrite bool_decide_eq_true_2; [auto 10|].
      apply list_elem_of_In. apply get_Some_In in Es.
      change (In (fst (s0, cell)) (map fst entry.2)). apply in_map, Es.
    - exists (PyDict.setdefault entry.2 s0 (test_suite (row_test row), new_counters)),
             (test_suite (row_test row), new_counters).
      rewrite bool_decide_eq_false_2
        by (rewrite list_elem_of_In; apply get_None_keys, Es).
      split; [reflexivity|]. split; [rewrite get_setdefault_eq, Es; reflexivity|].
      split; [apply NoDup_keys_setdefault, Hnd|]. split; [reflexivity|]. split.
      + intros status Hst. cbn [snd]. rewrite get_new_counters by exact Hst.
        rewrite cell_count_zero by exact Hs0. reflexivity.
      + intros sid Hne. apply get_setdefault_ne. congruence. }
  destruct Hsuites as (suites & cell0 & -> & Hcell0 & Hnd' & Hid0 & Hcounts0 & Hother).
  rewrite Hcell0. rewrite (Hcounts0 x0 (Test_status_four _)).
  eexists. split; [reflexivity|]. split; [|apply set_keeps_environment, Ee].
  assert (Hrow : in_cell e0 s0 row = true)
    by (unfold in_cell; fold e0 s0; rewrite !Z.eqb_refl; reflexivity).
  intros eid entry' Hget'.
  destruct (decide (eid = e0)) as [->|Hne].
  - rewrite get_set_eq in Hget'. injection Hget' as <-. simpl.
    split; [apply NoDup_keys_set, Hnd'|]. intros sid.
    destruct (decide (sid = s0)) as [->|Hns].
    + rewrite get_set_eq. simpl. split; [exact Hid0|]. split.
      * exists row. split; [apply in_or_app; simpl; auto|exact Hrow].
      * intros status Hst. rewrite cell_count_snoc, Hrow. simpl.
        destruct (decide (x0 = status)) as [<-|Hnx].
        -- rewrite get_set_eq, bool_decide_eq_true_2 by reflexivity. reflexivity.
        -- rewrite get_set_ne by exact Hnx. rewrite (Hcounts0 status Hst).
           rewrite bool_decide_eq_false_2 by exact Hnx. f_equal. lia.
    + rewrite get_set_ne by congruence. rewrite (Hother sid Hns).
      assert (Hout : in_cell e0 sid row = false).
      { unfold in_cell. fold s0. apply andb_false_iff. right. apply Z.eqb_neq. congruence. }
      destruct (in_cell_snoc_other done row e0 sid Hout) as (Hcnt & Hnone & Hsome).
      pose proof (Hcells sid) as Hsid.
      destruct (PyDict.get entry.2 sid) as [cell|]; [|auto].
      destruct Hsid as (Hid & Hex & Hcounts). split; [exact Hid|]. split; [auto|].
      intros status Hst. rewrite Hcnt. auto.
  - rewrite get_set_ne in Hget' by congruence.
    destruct (Hc eid entry' Hget') as [Hnd1 Hcells1]. split; [exact Hnd1|]. intros sid.
    assert (Hout : in_cell eid sid row = false).
    { unfold in_cell. fold e0. apply andb_false_iff. left. apply Z.eqb_neq. congruence. }
    destruct (in_cell_snoc_other done row eid sid Hout) as (Hcnt & Hnone & Hsome).
    pose proof (Hcells1 sid) as Hsid.
    destruct (PyDict.get entry'.2 sid) as [cell|]; [|auto].
    destruct Hsid as (Hid & Hex & Hcounts). split; [exact Hid|]. split; [auto|].
    intros status Hst. rewrite Hcnt. auto.
Qed.

Lemma keys_of_environments R :
  PyDict.keys R = map fst (map (fun item => (item.1, item.2.1)) R).
Proof. unfold PyDict.keys. rewrite map_map. apply map_ext. reflexivity. Qed.

Lemma count_suite_rows_counted (rows done : list (TestRow atom)) R :
  counted R done ->
  (forall row, In row rows -> In (env_id (run_environment (row_run row))) (PyDict.keys R)) ->
  exists R',
    fold_option (fun R row => count_suite_test (row_run row) R (row_test row)) rows R = Some R'
    /\ counted R' (done ++ rows)
    /\ map (fun item => (item.1, item.2.1)) R' = map (fun item => (item.1, item.2.1)) R.
Proof.
  revert done R; induction rows as [|row rows IH]; intros done R Hc Hkeys; simpl.
  - exists R. rewrite app_nil_r. auto.
  - destruct (count_suite_step R done row Hc) as (R1 & -> & Hc1 & Hmap1);
      [apply Hkeys; simpl; auto|].
    assert (Hk1 : PyDict.keys R1 = PyDict.keys R).
    { rewrite !keys_of_environments, Hmap1. reflexivity. }
    destruct (IH (done ++ [row]) R1 Hc1) as (R' & E & Hc' & Hmap').
    + intros r Hr. rewrite Hk1. apply Hkeys. simpl; auto.
    + exists R'. rewrite <- app_assoc in Hc'. split; [exact E|]. split; [exact Hc'|].
      rewrite Hmap'. exact Hmap1.
Qed.

Lemma environment_set_ids (runs : list (TestRun atom)) (seen : list Environment) :
  NoDup (map env_id seen) ->
  let envs :=
    fold_left
      (fun seen tr =>
         if existsb (fun e => env_id e =? env_id (run_environment tr)) seen then seen
         else seen ++ [run_environment tr])
      runs seen in
  NoDup (map env_id envs)
  /\ forall eid, In eid (map env_id envs)
       <-> In eid (map env_id seen) \/ exists r, In r runs /\ env_id (run_environment r) = eid.
Proof.
  revert seen; induction runs as [|tr runs IH]; intros seen Hnd; simpl.
  - split; [exact Hnd|]. intros eid. split; [auto|]. intros [H|[r [[] _]]]. exact H.
  - destruct (existsb _ seen) eqn:Ex.
    + destruct (IH seen Hnd) as [Hnd' Hin]. split; [exact Hnd'|].
      intros eid. rewrite Hin. split.
      * intros [H|[r [Hr E]]]; [auto|right; eauto].
      * intros [H|[r [[<-|Hr] E]]]; [auto| |right; eauto].
        left. apply existsb_exists in Ex as [e [He Eid]]. apply Z.eqb_eq in Eid.
        rewrite <- E, <- Eid. apply in_map, He.
    + assert (Hfresh : ~ In (env_id (run_environment tr)) (map env_id seen)).
      { intros [e [Eid He]]%in_map_iff.
        assert (Ht : existsb (fun e => env_id e =? env_id (run_environment tr)) seen = true)
          by (apply existsb_exists; exists e; split; [exact He|apply Z.eqb_eq, Eid]).
        congruence. }
      destruct (IH (seen ++ [run_environment tr])) as [Hnd' Hin].
      * rewrite map_app. simpl. apply NoDup_app. split; [exact Hnd|].
        split; [|apply NoDup_singleton].
        intros x Hx [->|[]%not_elem_of_nil]%elem_of_cons. apply Hfresh, list_elem_of_In, Hx.
      * split; [exact Hnd'|]. intros eid. rewrite Hin, map_app, in_app_iff. simpl. split.
        -- intros [[H|[E|[]]]|[r [Hr E]]]; eauto.
        -- intros [H|[r [[<-|Hr] E]]]; eauto.
Qed.

Lemma fold_set_fresh {K V A : Type} `{EqDecision K} (f : A -> K) (g : A -> V) (l : list A)
  (d : PyDict.t K V) :
  NoDup (map f l) ->
  (forall x, In x l -> PyDict.get d (f x) = None) ->
  fold_left (fun d x => PyDict.set d (f x) (g x)) l d = d ++ map (fun x => (f x, g x)) l.
Proof.
  revert d; induction l as [|x l IH]; intros d Hnd Hfresh; simpl.
  - symmetry; apply app_nil_r.
  - apply NoDup_cons in Hnd as [Hx Hnd].
    rewrite set_absent by (apply Hfresh; simpl; auto).
    rewrite IH; [rewrite <- app_assoc; reflexivity | exact Hnd |].
    intros y Hy. apply get_None_keys. unfold PyDict.keys. rewrite map_app. simpl.
    intros [Hin|[E|[]]]%in_app_or.
    + assert (Hf : PyDict.get d (f y) = None) by (apply Hfresh; simpl; auto).
      apply get_None_keys in Hf. exact (Hf Hin).
    + apply Hx, list_elem_of_In. rewrite E. apply in_map, Hy.
Qed.

(** [test_suites_by_environment] returns (it never raises [KeyError]) one entry
    per environment that has a test run of the build, in ascending order
    of slug; under an environment the suites are in ascending order of
    slug, each suite with a test in that environment appears once, and its
    four counters are the numbers of tests of the build in that
    environment and suite with each status, every test of every run
    counted (nothing is deduplicated). *)
Theorem test_suites_by_environment_counts (b : Build atom) :
  exists result,
    Build_test_suites_by_environment b = Some result
    /\ (forall eid, In eid (PyDict.keys result)
          <-> exists r, In r (test_runs b) /\ env_id (run_environment r) = eid)
    /\ Sorted (fun e1 e2 => String.leb (env_slug e1) (env_slug e2) = true)
         (map fst (PyDict.values result))
    /\ forall eid env suites, PyDict.get result eid = Some (env, suites) ->
         env_id env = eid
         /\ Sorted (fun s1 s2 => String.leb (suite_slug s1.1) (suite_slug s2.1) = true) suites
         /\ NoDup (map (fun sc => suite_id sc.1) suites)
         /\ (forall sid, In sid (map (fun sc => suite_id sc.1) suites)
               <-> exists row, In row (build_rows b) /\ in_cell eid sid row = true)
         /\ forall s c status,
              In (s, c) suites -> In status ["fail"; "pass"; "skip"; "xfail"] ->
              PyDict.get c status = Some (cell_count (build_rows b) eid (suite_id s) status).
Proof.
  unfold Build_test_suites_by_environment.
  destruct (environment_set_ids (test_runs b) [] ltac:(constructor)) as [Hnd Hids].
  cbv zeta in Hnd, Hids. fold (environment_set (test_runs b)) in Hnd, Hids.
  set (sorted := sort_by (fun e1 e2 => String.leb (env_slug e1) (env_slug e2))
                   (environment_set (test_runs b))).
  assert (Hperm : Permutation sorted (environment_set (test_runs b))) by apply sort_by_perm.
  assert (Hnds : NoDup (map env_id sorted)) by (rewrite Hperm; exact Hnd).
  rewrite (fold_set_fresh env_id (fun env => (env, PyDict.empty)) sorted PyDict.empty Hnds)
    by reflexivity.
  cbn [PyDict.empty app].
  set (R0 := map (fun x => (env_id x, (x, @PyDict.empty Z (Suite * PyDict.t string Z)))) sorted).
  assert (Hkeys0 : forall eid, In eid (PyDict.keys R0)
            <-> exists r, In r (test_runs b) /\ env_id (run_environment r) = eid).
  { intros eid. unfold R0, PyDict.keys. rewrite map_map. simpl.
    rewrite (Permutation_in' (eq_refl eid) (Permutation_map env_id Hperm)).
    rewrite Hids. simpl. split; [intros [[]|H]; exact H|auto]. }
  rewrite (count_suite_rows b). fold (build_rows b).
  destruct (count_suite_rows_counted (build_rows b) [] R0) as (R' & -> & Hc & Hmap).
  { intros eid entry Hget. unfold R0 in Hget.
    apply get_Some_In in Hget. apply in_map_iff in Hget as [e [[= <- <-] _]]. simpl.
    split; [constructor|]. intros sid row []. }
  { intros row Hrow. apply Hkeys0. unfold build_rows in Hrow.
    apply in_flat_map in Hrow as [r [Hr [t [<- _]]%in_map_iff]]. simpl. eauto. }
  simpl app in Hc.
  assert (Henvs : map (fun item => (item.1, item.2.1)) R' = map (fun e => (env_id e, e)) sorted).
  { rewrite Hmap. unfold R0. rewrite map_map. reflexivity. }
  eexists. split; [reflexivity|]. unfold PyDict.items.
  split; [|split].
  - intros eid. rewrite <- Hkeys0. unfold PyDict.keys. rewrite map_map. simpl.
    change (map (fun x : Z * (Environment * PyDict.t Z (Suite * PyDict.t string Z)) => x.1) R')
      with (PyDict.keys R').
    rewrite keys_of_environments, Hmap, <- keys_of_environments. reflexivity.
  - unfold PyDict.values. rewrite !map_map. simpl.
    replace (map (fun x : Z * (Environment * PyDict.t Z (Suite * PyDict.t string Z)) => x.2.1) R')
      with sorted.
    + apply sort_by_locally_sorted. intros x y Hxy.
      destruct (String.leb_total (env_slug x) (env_slug y)) as [H|H]; [congruence|exact H].
    + transitivity (map snd (map (fun e => (env_id e, e)) sorted)).
      * rewrite map_map. simpl. symmetry. apply map_id.
      * rewrite <- Henvs, map_map. apply map_ext. reflexivity.
  - intros eid env suites Hget.
    rewrite (get_map_values
               (fun entry : Environment * PyDict.t Z (Suite * PyDict.t string Z) =>
                  (entry.1,
                   sort_by (fun s1 s2 => String.leb (suite_slug s1.1) (suite_slug s2.1))
                     (PyDict.values entry.2))) R' eid) in Hget.
    destruct (PyDict.get R' eid) as [entry|] eqn:Ee; [|discriminate].
    injection Hget as <- <-.
    destruct (Hc eid entry Ee) as [Hnd' Hcells].
    assert (Hkeyed : forall k cell, In (k, cell) entry.2 -> suite_id cell.1 = k).
    { intros k cell Hin. apply In_get_NoDup in Hin; [|exact Hnd'].
      pose proof (Hcells k) as Hk. rewrite Hin in Hk. tauto. }
    assert (Hids' : map (fun sc : Suite * PyDict.t string Z => suite_id sc.1) (PyDict.values entry.2)
                    = PyDict.keys entry.2).
    { unfold PyDict.values, PyDict.keys. rewrite map_map. apply map_ext_in.
      intros [k cell] Hin. simpl. apply Hkeyed, Hin. }
    set (suites := sort_by _ (PyDict.values entry.2)).
    assert (Hps : Permutation suites (PyDict.values entry.2)) by apply sort_by_perm.
    split; [|split; [|split; [|split]]].
    + apply get_Some_In in Ee.
      assert (Hin : In (eid, entry.1) (map (fun item => (item.1, item.2.1)) R'))
        by (apply in_map_iff; exists (eid, entry); auto).
      rewrite Henvs in Hin. apply in_map_iff in Hin as [e [[= <- <-] _]]. reflexivity.
    + apply sort_by_locally_sorted. intros x y Hxy.
      destruct (String.leb_total (suite_slug x.1) (suite_slug y.1)) as [H|H];
        [congruence|exact H].
    + rewrite (Permutation_map (fun sc => suite_id sc.1) Hps), Hids'. exact Hnd'.
    + intros sid.
      rewrite (Permutation_in' (eq_refl sid) (Permutation_map (fun sc => suite_id sc.1) Hps)).
      rewrite Hids'. pose proof (Hcells sid) as Hsid.
      destruct (PyDict.get entry.2 sid) as [cell|] eqn:Es.
      * split; [intros _; tauto|]. intros _.
        apply get_Some_In in Es. change (In (fst (sid, cell)) (map fst entry.2)).
        apply in_map, Es.
      * split.
        -- intros Hin. apply get_None_keys in Es. contradiction.
        -- intros [row [Hrow Hin]]. rewrite (Hsid row Hrow) in Hin. discriminate.
    + intros s c status Hin Hst.
      apply (Permutation_in _ Hps) in Hin.
      apply in_map_iff in Hin as [[k cell] [Ecell Hin]]. simpl in Ecell. subst cell.
      pose proof (Hkeyed k (s, c) Hin) as Ek. simpl in Ek. subst k.
      apply In_get_NoDup in Hin; [|exact Hnd'].
      pose proof (Hcells (suite_id s)) as Hk. rewrite Hin in Hk.
      destruct Hk as (_ & _ & Hcounts). apply Hcounts, Hst.
Qed.

End SuitesFacts.

Lemma Test_history_order_sample :
  since (Test_history MoreSamples.login_builds (MoreSamples.login_row 13 30 true))
  = Some (MoreSamples.login_row 12 20 true)
  /\ last_different (Test_history MoreSamples.login_builds (MoreSamples.login_row 13 30 true))
     = Some (MoreSamples.login_row 11 10 false)
  /\ build_datetime (row_build (MoreSamples.login_row 11 10 false))
     <= build_datetime (row_build (MoreSamples.login_row 12 20 true))
  /\ build_datetime (row_build (MoreSamples.login_row 12 20 true))
     < build_datetime (row_build (MoreSamples.login_row 13 30 true)).
Proof.
  assert (Hs : since (Test_history MoreSamples.login_builds (MoreSamples.login_row 13 30 true))
               = Some (MoreSamples.login_row 12 20 true)) by reflexivity.
  assert (Hd : last_different (Test_history MoreSamples.login_builds (MoreSamples.login_row 13 30 true))
               = Some (MoreSamples.login_row 11 10 false)) by reflexivity.
  split; [exact Hs|]. split; [exact Hd|].
  exact (Test_history_order MoreSamples.login_builds (MoreSamples.login_row 13 30 true)
           (MoreSamples.login_row 12 20 true) (MoreSamples.login_row 11 10 false) Hs Hd).
Defined.
